(** * db_backup: retention and backup cycle of [db_backup.py]

    A shallow embedding of the class [db_bkp] and of [main].  Python
    strings are byte strings (UTF-8 keeps the code-point order, and the
    separator and the tier tokens are ASCII), tuples and lists are
    lists, an exception is a value of [exn] carried by [result]. *)

From Stdlib Require Import ZArith Ascii String Sorted.
From stdpp Require Import base option list strings gmap pretty sorting.

Local Open Scope string_scope.
Local Open Scope Z_scope.
Local Open Scope list_scope.

(** ** Exceptions and results *)

Inductive exn : Type :=
  | ValueError (msg : string)
  | IndexError (msg : string)
  | AttributeError (attr : string)
  | TypeError (msg : string)
  | RuntimeError (msg : string)
  | OSError (msg : string)
  | Exception (msg : string).

Inductive result (A : Type) : Type :=
  | Ok (a : A)
  | Raise (e : exn).
Arguments Ok {A} a.
Arguments Raise {A} e.

Definition rbind {A B} (r : result A) (k : A → result B) : result B :=
  match r with
  | Ok a => k a
  | Raise e => Raise e
  end.

Notation "x ←r c ; k" := (rbind c (λ x, k))
  (at level 20, c at level 100, k at level 200, right associativity,
   format "x  ←r  c ;  '/' k").
Notation "' p ←r c ; k" := (rbind c (λ x, let 'p := x in k))
  (at level 20, p pattern, c at level 100, k at level 200,
   right associativity, format "' p  ←r  c ;  '/' k").

Fixpoint foldR {A B} (f : B → A → result B) (b : B) (l : list A) : result B :=
  match l with
  | [] => Ok b
  | a :: l' => b' ←r f b a; foldR f b' l'
  end.

(** ** Strings: [str.split], [str.join], [in], [list.sort] *)

Module Str.

(** [s.split(sep)] for a one-character separator: always at least one
    field. *)
Fixpoint split (sep : ascii) (s : string) : list string :=
  match s with
  | EmptyString => [EmptyString]
  | String c s' =>
      if Ascii.eqb c sep then EmptyString :: split sep s'
      else match split sep s' with
           | cur :: rest => String c cur :: rest
           | [] => [String c EmptyString]
           end
  end.

(** [sep.join(l)] *)
Definition join (sep : string) (l : list string) : string :=
  String.concat sep l.

(** [needle in hay] *)
Fixpoint contains (needle hay : string) : bool :=
  String.prefix needle hay
  || match hay with
     | EmptyString => false
     | String _ hay' => contains needle hay'
     end.

(** [c in s] for one character *)
Fixpoint has_char (c : ascii) (s : string) : bool :=
  match s with
  | EmptyString => false
  | String c' s' => Ascii.eqb c' c || has_char c s'
  end.

(** [l.sort()] on strings: the ascending arrangement for the
    lexicographic order.  The order is total and antisymmetric, so the
    arrangement does not depend on the sorting algorithm. *)
Fixpoint insert_sorted (x : string) (l : list string) : list string :=
  match l with
  | [] => [x]
  | y :: l' => if String.leb x y then x :: l else y :: insert_sorted x l'
  end.

Fixpoint sort (l : list string) : list string :=
  match l with
  | [] => []
  | x :: l' => insert_sorted x (sort l')
  end.

End Str.

(** ** The retention computation, [manage_files] *)

(** [self._backup_counts] *)
Record backup_counts : Type := BackupCounts {
  DLY_BACKUP_COUNT : Z;
  WLY_BACKUP_COUNT : Z;
  MLY_BACKUP_COUNT : Z
}.

(** [zip] applied to the unpacked [rows]: the columns of [rows], as many
    as the shortest row has fields; none when there is no row. *)
Fixpoint zip_star (rows : list (list string)) : list (list string) :=
  match rows with
  | [] => []
  | r :: rows' =>
      match rows' with
      | [] => (λ x, [x]) <$> r
      | _ :: _ => zip_with cons r (zip_star rows')
      end
  end.

(** [X, Y, Z = ...]: exactly three items or [ValueError]. *)
Definition unpack3 {A} (l : list A) : result (A * A * A) :=
  match l with
  | [x; y; z] => Ok (x, y, z)
  | _ :: _ :: _ :: _ :: _ =>
      Raise (ValueError "too many values to unpack (expected 3)")
  | _ => Raise (ValueError "not enough values to unpack")
  end.

(** [zip(X,Y,Z)] *)
Fixpoint zip3 (X Y Z : list string) : list (string * string * string) :=
  match X, Y, Z with
  | x :: X', y :: Y', z :: Z' => (x, y, z) :: zip3 X' Y' Z'
  | _, _, _ => []
  end.

(** The inner [prune]: [while len(backup_list) > n:
    self._drop_list.append(backup_list.pop(0))].  [pop(0)] on the empty
    list is an [IndexError] (reached only for a negative [n]).  Returns
    what is left of [backup_list] and the new drop list. *)
Fixpoint prune (backup_list : list string) (n : Z) (drop_list : list string)
  : result (list string * list string) :=
  match backup_list with
  | [] =>
      if 0 >? n then Raise (IndexError "pop from empty list")
      else Ok ([], drop_list)
  | f :: rest =>
      if Z.of_nat (length backup_list) >? n
      then prune rest n (drop_list ++ [f])
      else Ok (backup_list, drop_list)
  end.

(** The names rebuilt for one [y]:
    ['_'.join([x1,x2,x3]) for x1,x2,x3 in zip(X,Y,Z) if x2 == y] *)
Definition rebuilt (X Y Z : list string) (y : string) : list string :=
  (λ t : string * string * string, Str.join "_" [t.1.1; t.1.2; t.2])
    <$> filter (λ t : string * string * string, t.1.2 = y) (zip3 X Y Z).

(** [[_ for _ in file_list if token in _]] *)
Definition having (token : string) (file_list : list string) : list string :=
  filter (λ f, Str.contains token f) file_list.

(** One turn of [for y in set(Y)]. *)
Definition manage_group (counts : backup_counts) (X Y Z : list string)
    (drop_list : list string) (y : string) : result (list string) :=
  let file_list := rebuilt X Y Z y in
  let daily_backups := Str.sort (having "DAILY" file_list) in
  let weekly_backups := Str.sort (having "WEEKLY" file_list) in
  let monthly_backups := Str.sort (having "MONTHLY" file_list) in
  '(_, drop_list) ←r prune daily_backups (DLY_BACKUP_COUNT counts) drop_list;
  '(_, drop_list) ←r prune weekly_backups (WLY_BACKUP_COUNT counts) drop_list;
  '(_, drop_list) ←r prune monthly_backups (MLY_BACKUP_COUNT counts) drop_list;
  Ok drop_list.

(** [manage_files(file_list)]: the value left in [self._drop_list], or
    the exception raised.  [set_iter Y] is the order in which
    [for y in set(Y)] visits the distinct elements of [Y]; Python leaves
    it unspecified. *)
Definition manage_files (set_iter : list string → list string)
    (counts : backup_counts) (file_list : list string)
  : result (list string) :=
  '(X, Y, Z) ←r unpack3 (zip_star (Str.split "_" <$> file_list));
  foldR (manage_group counts X Y Z) [] (set_iter Y).

(** The column [Y] of a listing (empty when the unpacking fails). *)
Definition column_Y (file_list : list string) : list string :=
  match unpack3 (zip_star (Str.split "_" <$> file_list)) with
  | Ok (_, Y, _) => Y
  | Raise _ => []
  end.

(** What [set_iter] has to do on the list [Y]: visit every element of
    [Y], only those, each once. *)
Definition set_iter_on (set_iter : list string → list string)
    (Y : list string) : Prop :=
  NoDup (set_iter Y)
  ∧ Forall (λ y, y ∈ Y) (set_iter Y) ∧ Forall (λ y, y ∈ set_iter Y) Y.

(** The listing once the names of [deleted] are removed from the
    directory. *)
Definition without (deleted file_list : list string) : list string :=
  filter (λ f, f ∉ deleted) file_list.

(** The group of a name as [manage_files] reads it: the second of its
    fields (an element of [Y]). *)
Definition group_of (f : string) : option string :=
  Str.split "_" f !! 1%nat.

(** The three tier tokens that [manage_files] looks for. *)
Definition tier_tokens : list string := ["DAILY"; "WEEKLY"; "MONTHLY"].

(** The order of [list.sort] on names. *)
Definition str_le (a b : string) : Prop := String.leb a b = true.

(** The front of a sorted bucket that exceeds the count [n]. *)
Definition oldest (n : Z) (bucket : list string) : list string :=
  take (length bucket - Z.to_nat n) (Str.sort bucket).

(** All that one turn of the loop appends to the drop list, for the
    rebuilt names [file_list] of one group. *)
Definition emitted (counts : backup_counts) (file_list : list string)
  : list string :=
  oldest (DLY_BACKUP_COUNT counts) (having "DAILY" file_list)
  ++ oldest (WLY_BACKUP_COUNT counts) (having "WEEKLY" file_list)
  ++ oldest (MLY_BACKUP_COUNT counts) (having "MONTHLY" file_list).

(** Counts as the retention policy has them: not negative. *)
Definition counts_nonneg (counts : backup_counts) : Prop :=
  0 ≤ DLY_BACKUP_COUNT counts ∧ 0 ≤ WLY_BACKUP_COUNT counts
  ∧ 0 ≤ MLY_BACKUP_COUNT counts.

(** The row [[x1; x2; x3]] of a triple of [zip(X,Y,Z)]. *)
Definition to_row (t : string * string * string) : list string :=
  [t.1.1; t.1.2; t.2].

(** A listing in which every name has exactly three fields. *)
Definition three_fields (file_list : list string) : Prop :=
  Forall (λ f, length (Str.split "_" f) = 3%nat) file_list.

(** ** Dates and artifact names, from [_bookkeeping] *)

(** [datetime.date]: the proleptic Gregorian calendar, years 1 to 9999. *)
Record date : Type := Date { year : nat; month : nat; day : nat }.

Definition is_leap (y : nat) : bool :=
  ((y mod 4 =? 0) && negb (y mod 100 =? 0) || (y mod 400 =? 0))%nat.

Definition days_in_month (y m : nat) : nat :=
  match m with
  | 2 => if is_leap y then 29 else 28
  | 4 | 6 | 9 | 11 => 30
  | _ => 31
  end%nat.

Definition valid_date (d : date) : Prop :=
  1 ≤ Z.of_nat (year d) ≤ 9999
  ∧ (1 ≤ month d ≤ 12 ∧ 1 ≤ day d ≤ days_in_month (year d) (month d))%nat.

(** The order of [datetime.date]: by year, then month, then day. *)
Definition date_compare (d1 d2 : date) : comparison :=
  match Nat.compare (year d1) (year d2) with
  | Eq => match Nat.compare (month d1) (month d2) with
          | Eq => Nat.compare (day d1) (day d2)
          | c => c
          end
  | c => c
  end.

(** [date.toordinal()] and [date.weekday()] (Monday is 0, Sunday is 6). *)
Definition days_before_year (y : nat) : nat :=
  ((y - 1) * 365 + (y - 1) / 4 - (y - 1) / 100 + (y - 1) / 400)%nat.

Definition days_before_month (y m : nat) : nat :=
  sum_list (days_in_month y <$> seq 1 (m - 1)).

Definition toordinal (d : date) : nat :=
  (days_before_year (year d) + days_before_month (year d) (month d)
   + day d)%nat.

Definition weekday (d : date) : nat := ((toordinal d + 6) mod 7)%nat.

(** Decimal digits and zero padding of [strftime]. *)
Definition digit (n : nat) : ascii :=
  match (n mod 10)%nat with
  | 0 => "0" | 1 => "1" | 2 => "2" | 3 => "3" | 4 => "4"
  | 5 => "5" | 6 => "6" | 7 => "7" | 8 => "8" | _ => "9"
  end%nat%char.

Definition pad2 (n : nat) : string :=
  String (digit (n / 10)) (String (digit n) "").

Definition pad4 (n : nat) : string :=
  String (digit (n / 1000)) (String (digit (n / 100)) (pad2 n)).

(** [%Y] as CPython gets it from the C library of Linux: the year in
    decimal, without padding ([date(999,12,31)] gives [999], and
    [date(1,1,1)] gives [1]).  The year of a [datetime.date] runs from
    1 to 9999. *)
Definition strftime_Y (y : nat) : string :=
  if (y <? 10)%nat then String (digit y) ""
  else if (y <? 100)%nat then pad2 y
  else if (y <? 1000)%nat then String (digit (y / 100)) (pad2 y)
  else pad4 y.

(** [today.strftime('%Y-%m-%d')]: month and day on two digits. *)
Definition strftime_Ymd (d : date) : string :=
  strftime_Y (year d) +:+ "-" +:+ pad2 (month d) +:+ "-" +:+ pad2 (day d).

(** [today.strftime("%d")] *)
Definition strftime_d (d : date) : string := pad2 (day d).

(** The group key: the names of [DATABASES], split on the blank, sorted,
    joined with a dash. *)
Definition group_key (databases : string) : string :=
  Str.join "-" (Str.sort (Str.split " " databases)).

(** [self._filename] *)
Definition filename (databases : string) (today : date) : string :=
  group_key databases +:+ "_" +:+ strftime_Ymd today +:+ ".sql".

Inductive tier : Type := DAILY | WEEKLY | MONTHLY.

Definition tier_token (t : tier) : string :=
  match t with
  | DAILY => "DAILY"
  | WEEKLY => "WEEKLY"
  | MONTHLY => "MONTHLY"
  end.

(** [f"DAILY_{self._filename}"] and its two siblings. *)
Definition tier_name (t : tier) (file : string) : string :=
  tier_token t +:+ "_" +:+ file.

(** ** The object, its surroundings and the effects *)

(** Python values held by the attributes of a [db_bkp] object. *)
Inductive pyval : Type :=
  | PNone
  | PBool (b : bool)
  | PInt (z : Z)
  | PStr (s : string)
  | PList (l : list string)
  | PCounts (c : backup_counts).

(** [bool(v)] *)
Definition truthy (v : pyval) : bool :=
  match v with
  | PNone => false
  | PBool b => b
  | PInt z => negb (z =? 0)
  | PStr s => negb (String.eqb s "")
  | PList l => match l with [] => false | _ => true end
  | PCounts _ => true
  end.

(** [str(v)], as an f-string prints a scalar. *)
Definition to_str (v : pyval) : string :=
  match v with
  | PNone => "None"
  | PBool true => "True"
  | PBool false => "False"
  | PInt z => pretty z
  | PStr s => s
  | PList _ | PCounts _ => "<object>"
  end.

(** What the dump process leaves behind. *)
Record dump_outcome : Type := DumpOutcome {
  dump_stdout : string;
  dump_stderr : string;
  returncode : Z
}.

(** What a run depends on and does not control. *)
Record env : Type := Env {
  getenv : string → option string;          (* [os.getenv] *)
  cli_args : gmap string pyval;             (* the argparse namespace *)
  today : date;                             (* [date.today()] *)
  int_float_str : string → result Z;        (* [int(float(s))] on a [str] *)
  popen : string → dump_outcome;            (* the shell command, run *)
  set_iter : list string → list string;     (* the order of [set(Y)] *)
  open_error : string → option exn;         (* [open(path,'w')] *)
  connect_error : option exn;               (* [client.connect] *)
  put_error : string → option exn;          (* the transfer of [sftp.put] *)
  listdir_error : option exn;               (* [sftp.listdir] *)
  remove_error : string → option exn        (* [sftp.remove] *)
}.

(** What a run attempts, in order. *)
Inductive event : Type :=
  | EPopen (cmd : string)
  | EOpenWrite (path : string)
  | EListdir (dir : string)
  | ERemove (path : string)
  | EConnect
  | EOpenSftp
  | EPut (localpath remotepath : string)
  | ESftpListdir (dir : string)
  | ESftpRemove (path : string)
  | ESftpClose
  | EClientClose.

(** The object and the two stores.  A store maps the path of a file to
    its content. *)
Record world : Type := World {
  self : gmap string pyval;
  local_fs : gmap string string;
  remote_fs : gmap string string;
  client_open : bool;
  sftp_open : bool;
  trace : list event
}.

Definition M (A : Type) : Type := world → result A * world.

#[global] Instance M_ret : MRet M := λ A a w, (Ok a, w).
#[global] Instance M_bind : MBind M := λ A B k m w,
  match m w with
  | (Ok a, w') => k a w'
  | (Raise e, w') => (Raise e, w')
  end.

Definition raise {A} (e : exn) : M A := λ w, (Raise e, w).

Definition lift {A} (r : result A) : M A := λ w, (r, w).

(** A failure that the surroundings decide. *)
Definition may_fail (err : option exn) : M unit :=
  match err with
  | Some e => raise e
  | None => mret ()
  end.

Definition log (ev : event) : M unit := λ w,
  (Ok (), World (self w) (local_fs w) (remote_fs w) (client_open w)
            (sftp_open w) (trace w ++ [ev])).

(** [getattr(self, name)] and [setattr(self, name, v)] *)
Definition get_attr (name : string) : M pyval := λ w,
  match self w !! name with
  | Some v => (Ok v, w)
  | None => (Raise (AttributeError name), w)
  end.

Definition set_attr (name : string) (v : pyval) : M unit := λ w,
  (Ok (), World (<[name := v]> (self w)) (local_fs w) (remote_fs w)
            (client_open w) (sftp_open w) (trace w)).

Definition get_local : M (gmap string string) := λ w, (Ok (local_fs w), w).
Definition get_remote : M (gmap string string) := λ w, (Ok (remote_fs w), w).

Definition set_local (fs : gmap string string) : M unit := λ w,
  (Ok (), World (self w) fs (remote_fs w) (client_open w) (sftp_open w)
            (trace w)).

Definition set_remote (fs : gmap string string) : M unit := λ w,
  (Ok (), World (self w) (local_fs w) fs (client_open w) (sftp_open w)
            (trace w)).

Definition set_session (client sftp : bool) : M unit := λ w,
  (Ok (), World (self w) (local_fs w) (remote_fs w) client sftp (trace w)).

(** [try: m except: raise Exception(msg)] *)
Definition reraise_as {A} (msg : string) (m : M A) : M A := λ w,
  match m w with
  | (Ok a, w') => (Ok a, w')
  | (Raise _, w') => (Raise (Exception msg), w')
  end.

(** ** Configuration: [__DEFAULT_PROPERTIES__], [_scrape_args],
    [_bookkeeping] *)

(** The keys of [__DEFAULT_PROPERTIES__] with their defaults, in the
    order of the dictionary. *)
Definition __DEFAULT_PROPERTIES__ : list (string * pyval) :=
  [("DLY_BACKUP_COUNT", PInt 5); ("WLY_BACKUP_COUNT", PInt 5);
   ("MLY_BACKUP_COUNT", PInt 5); ("IP_HOST", PNone);
   ("DB_USER", PStr "root"); ("PASSWORD", PNone);
   ("DATABASES", PStr "all"); ("DIR_LOCAL", PStr "/backups");
   ("SKIP_REMOTE", PBool false); ("IP_REMOTE", PNone);
   ("USER_REMOTE", PNone); ("PASS_REMOTE", PNone);
   ("PORT_REMOTE", PInt 22); ("DIR_REMOTE", PNone);
   ("CREDENTIAL_FILE", PNone)].

(** [str.lower()] on ASCII. *)
Definition lower_char (c : ascii) : ascii :=
  let n := N_of_ascii c in
  if ((65 <=? n) && (n <=? 90))%N then ascii_of_N (n + 32) else c.

Fixpoint lower (s : string) : string :=
  match s with
  | EmptyString => EmptyString
  | String c s' => String (lower_char c) (lower s')
  end.

Fixpoint for_each {A} (l : list A) (body : A → M unit) : M unit :=
  match l with
  | [] => mret ()
  | a :: l' => body a;; for_each l' body
  end.

(** The inner [checkcli]: the attribute of the namespace, [None] when
    there is none. *)
Definition checkcli (args : gmap string pyval) (v : string) : pyval :=
  default PNone (args !! v).

(** One turn of the loop of [_scrape_args]. *)
Definition scrape_one (e : env) (kv : string * pyval) : M unit :=
  let value := kv.2 in
  let value := match getenv e kv.1 with Some s => PStr s | None => value end in
  let value := match checkcli (cli_args e) (lower kv.1) with
               | PNone => value
               | v => v
               end in
  set_attr ("_" +:+ lower kv.1) value.

Definition _scrape_args (e : env) : M unit :=
  for_each __DEFAULT_PROPERTIES__ (scrape_one e).

(** [int(float(v))] *)
Definition int_float (e : env) (v : pyval) : result Z :=
  match v with
  | PInt z => Ok z
  | PBool b => Ok (if b then 1 else 0)
  | PStr s => int_float_str e s
  | _ => Raise (TypeError "float() argument must be a string or a number")
  end.

(** [_bookkeeping], without the banner it prints (which only reads
    attributes that [_scrape_args] has set). *)
Definition _bookkeeping (e : env) : M unit :=
  d ← get_attr "_dly_backup_count"; d ← lift (int_float e d);
  w ← get_attr "_wly_backup_count"; w ← lift (int_float e w);
  m ← get_attr "_mly_backup_count"; m ← lift (int_float e m);
  set_attr "_backup_counts" (PCounts (BackupCounts d w m));;
  set_attr "_make_weekly" (PBool (weekday (today e) =? 6)%nat);;
  set_attr "_make_monthly" (PBool (String.eqb (strftime_d (today e)) "01"));;
  databases ← get_attr "_databases";
  match databases with
  | PStr s => set_attr "_filename" (PStr (filename s (today e)))
  | _ => raise (AttributeError "split")
  end.

(** [db_bkp(args)] *)
Definition __init__ (e : env) : M unit :=
  _scrape_args e;; _bookkeeping e.

(** ** The dump: [_create_dump_cmd], [read_db] *)

Definition _create_dump_cmd : M string :=
  ip_host ← get_attr "_ip_host";
  let dump_cmd := "mysqldump" in
  let dump_cmd := match ip_host with
                  | PNone => dump_cmd
                  | v => dump_cmd +:+ " -h'" +:+ to_str v +:+ "'"
                  end in
  db_user ← get_attr "_db_user";
  let dump_cmd := dump_cmd +:+ " -u'" +:+ to_str db_user +:+ "'" in
  password ← get_attr "_password";
  let dump_cmd := match password with
                  | PNone => dump_cmd
                  | v => dump_cmd +:+ " -p'" +:+ to_str v +:+ "'"
                  end in
  databases ← get_attr "_databases";
  mret (match databases with
        | PStr "all" => dump_cmd +:+ " --all-databases"
        | v => dump_cmd +:+ " --databases " +:+ to_str v
        end).

(** [read_db]: the exit status of the process is never looked at, and
    [communicate()] is called without a timeout. *)
Definition read_db (e : env) : M unit :=
  dump_cmd ← _create_dump_cmd;
  log (EPopen dump_cmd);;
  let outcome := popen e dump_cmd in
  set_attr "stdout" (PStr (dump_stdout outcome));;
  set_attr "stderr" (PStr (dump_stderr outcome));;
  stderr ← get_attr "stderr";
  if truthy stderr
  then raise (RuntimeError
                ("Unable to properly connect to the database with standard error "
                 +:+ to_str stderr))
  else mret ().

(** ** Paths and the two stores *)

Fixpoint ends_with (c : ascii) (s : string) : bool :=
  match s with
  | EmptyString => false
  | String x EmptyString => Ascii.eqb x c
  | String _ s' => ends_with c s'
  end.

(** [os.path.join(a, b)] on POSIX paths, [a] an attribute. *)
Definition path_join (a : pyval) (b : string) : result string :=
  match a with
  | PStr a =>
      Ok (if String.prefix "/" b then b
          else if String.eqb a "" || ends_with "/" a then a +:+ b
          else a +:+ "/" +:+ b)
  | _ => Raise (TypeError "expected str, bytes or os.PathLike object")
  end.

Definition strip_prefix (p s : string) : option string :=
  if String.prefix p s
  then Some (String.substring (String.length p)
               (String.length s - String.length p) s)
  else None.

(** The names of the files that lie directly in [dir], in the order of
    the store. *)
Definition names_in (dir : string) (fs : gmap string string) : list string :=
  omap (λ kv : string * string,
          name ← strip_prefix (if ends_with "/" dir then dir else dir +:+ "/")
                   kv.1;
          if Str.has_char "/" name || String.eqb name "" then None
          else Some name)
       (map_to_list fs).

Definition as_dir (dir : pyval) : result string :=
  match dir with
  | PStr d => Ok d
  | _ => Raise (TypeError "listdir: path should be string")
  end.

(** [with open(path,'w') as f: f.writelines(self.stdout)] *)
Definition write_local (e : env) (path : string) : M unit :=
  log (EOpenWrite path);;
  may_fail (open_error e path);;
  fs ← get_local; set_local (<[path := ""]> fs);;
  stdout ← get_attr "stdout";
  fs ← get_local; set_local (<[path := to_str stdout]> fs).

(** [os.listdir(dir)] and [os.remove(path)] *)
Definition os_listdir (dir : pyval) : M (list string) :=
  d ← lift (as_dir dir);
  log (EListdir d);;
  fs ← get_local; mret (names_in d fs).

Definition os_remove (path : string) : M unit :=
  log (ERemove path);;
  fs ← get_local;
  match fs !! path with
  | Some _ => set_local (delete path fs)
  | None => raise (OSError "No such file or directory")
  end.

(** [sftp.put], [sftp.listdir], [sftp.remove] *)
Definition sftp_put (e : env) (localpath remotepath : string) : M unit :=
  log (EPut localpath remotepath);;
  fs ← get_local;
  match fs !! localpath with
  | Some content =>
      may_fail (put_error e remotepath);;
      rfs ← get_remote; set_remote (<[remotepath := content]> rfs)
  | None => raise (OSError "No such file or directory")
  end.

Definition sftp_listdir (e : env) (dir : pyval) : M (list string) :=
  d ← lift (as_dir dir);
  log (ESftpListdir d);;
  may_fail (listdir_error e);;
  rfs ← get_remote; mret (names_in d rfs).

Definition sftp_remove (e : env) (path : string) : M unit :=
  log (ESftpRemove path);;
  may_fail (remove_error e path);;
  rfs ← get_remote;
  match rfs !! path with
  | Some _ => set_remote (delete path rfs)
  | None => raise (OSError "No such file")
  end.

(** ** The methods [manage_files], [dump_local], [dump_remote] and
    [main] *)

(** The method [manage_files] on the object: [manage_files] above, with
    the counts read from the object and the result stored in
    [self._drop_list].  (When a [prune] raises, the object keeps the
    names appended so far; the model keeps the empty list.) *)
Definition manage_files_on_self (e : env) (file_list : list string) : M unit :=
  '(X, Y, Z) ← lift (unpack3 (zip_star (Str.split "_" <$> file_list)));
  set_attr "_drop_list" (PList []);;
  counts ← get_attr "_backup_counts";
  match counts with
  | PCounts c =>
      drop_list ← lift (foldR (manage_group c X Y Z) [] (set_iter e Y));
      set_attr "_drop_list" (PList drop_list)
  | _ => raise (TypeError "object is not subscriptable")
  end.

(** [while self._drop_list: fl = self._drop_list.pop(); ...]: [stack] is
    the drop list, last name first. *)
Fixpoint drop_loop (remove : string → M unit) (dir_attr : string)
    (stack : list string) : M unit :=
  match stack with
  | [] => mret ()
  | fl :: rest =>
      set_attr "_drop_list" (PList (rev rest));;
      dir ← get_attr dir_attr;
      path ← lift (path_join dir fl);
      remove path;;
      drop_loop remove dir_attr rest
  end.

Definition clean_up (remove : string → M unit) (dir_attr : string) : M unit :=
  drop_list ← get_attr "_drop_list";
  match drop_list with
  | PList l => drop_loop remove dir_attr (rev l)
  | _ => raise (AttributeError "pop")
  end.

(** The path [os.path.join(self.<dir_attr>, f"<TIER>_{self._filename}")] *)
Definition tier_path (dir_attr : string) (t : tier) : M string :=
  dir ← get_attr dir_attr;
  file ← get_attr "_filename";
  lift (path_join dir (tier_name t (to_str file))).

Definition dump_local (e : env) (debug : bool) : M unit :=
  skip_local ← get_attr "_skip_local";
  if truthy skip_local then mret ()
  else
    f_daily ← tier_path "_dir_local" DAILY;
    write_local e f_daily;;
    make_weekly ← get_attr "_make_weekly";
    (if truthy make_weekly
     then f_weekly ← tier_path "_dir_local" WEEKLY; write_local e f_weekly
     else mret ());;
    make_monthly ← get_attr "_make_monthly";
    (if truthy make_monthly
     then f_monthly ← tier_path "_dir_local" MONTHLY; write_local e f_monthly
     else mret ());;
    dir ← get_attr "_dir_local";
    names ← os_listdir dir;
    manage_files_on_self e names;;
    clean_up os_remove "_dir_local";;
    if debug
    then dir ← get_attr "_dir_local";
         names ← os_listdir dir;
         manage_files_on_self e names
    else mret ().

(** One of the three uploads of [dump_remote]. *)
Definition upload (e : env) (t : tier) (msg : string) : M unit :=
  f_l ← tier_path "_dir_local" t;
  f_r ← tier_path "_dir_remote" t;
  reraise_as msg (sftp_put e f_l f_r).

(** [sftp.close(); client.close()] *)
Definition close_session : M unit :=
  log ESftpClose;;
  set_session true false;;
  log EClientClose;;
  set_session false false.

Definition dump_remote (e : env) (debug : bool) : M unit :=
  skip_remote ← get_attr "_skip_remote";
  if truthy skip_remote then mret ()
  else
    credential_file ← get_attr "_credential_file";
    get_attr "_ip_remote";; get_attr "_port_remote";;
    get_attr "_user_remote";;
    (match credential_file with
     | PNone => get_attr "_pass_remote";; mret ()
     | _ => mret ()
     end);;
    log EConnect;;
    may_fail (connect_error e);;
    set_session true false;;
    log EOpenSftp;;
    set_session true true;;
    upload e DAILY "Unable to copy daily backup.";;
    upload e WEEKLY "Unable to copy weekly backup.";;
    upload e MONTHLY "Unable to copy monthly backup.";;
    dir ← get_attr "_dir_remote";
    names ← sftp_listdir e dir;
    manage_files_on_self e names;;
    clean_up (sftp_remove e) "_dir_remote";;
    (if debug
     then dir ← get_attr "_dir_remote";
          names ← sftp_listdir e dir;
          manage_files_on_self e names
     else mret ());;
    close_session.

Definition main (e : env) : M unit :=
  __init__ e;;
  read_db e;;
  dump_local e false;;
  dump_remote e false.


(** A fresh object in a world with the given stores and no session. *)
Definition fresh (local remote : gmap string string) : world :=
  World ∅ local remote false false [].

(** The run leaves the stores and the session alone and attempts
    nothing but the dump command; the attribute [name] is not assigned. *)
Definition quiet (name : string) (w w' : world) : Prop :=
  self w' !! name = self w !! name
  ∧ local_fs w' = local_fs w ∧ remote_fs w' = remote_fs w
  ∧ client_open w' = client_open w ∧ sftp_open w' = sftp_open w
  ∧ ∃ cmds, trace w' = trace w ++ (EPopen <$> cmds).

(** Every run of [m] is related by [P] to its start. *)
Definition preserves {A} (P : world → world → Prop) (m : M A) : Prop :=
  ∀ w r w', m w = (r, w') → P w w'.


(** The directory of the database MONTHLYX after two days, the first
    of them the first of the month. *)
Definition monthlyx_listing : list string :=
  ["DAILY_MONTHLYX_2024-01-01.sql"; "DAILY_MONTHLYX_2024-01-02.sql";
   "MONTHLY_MONTHLYX_2024-01-01.sql"].

(** A Tuesday that is not the first of a month, a remote host and
    directory configured through the environment, a dump that succeeds,
    and no failure of the stores. *)
Definition tuesday : env :=
  Env (λ k, if String.eqb k "DIR_REMOTE" then Some "/remote"
            else if String.eqb k "IP_REMOTE" then Some "10.0.0.2"
            else None)
      ∅ (Date 2024 1 2) (λ _, Raise (ValueError "could not convert"))
      (λ _, DumpOutcome "-- dump" "" 0) remove_dups
      (λ _, None) None (λ _, None) None (λ _, None).

(** The same day with a transfer that fails. *)
Definition tuesday_offline : env :=
  Env (getenv tuesday) ∅ (Date 2024 1 2) (int_float_str tuesday)
      (popen tuesday) remove_dups (λ _, None) None
      (λ _, Some (OSError "Failure")) None (λ _, None).


(** The keys of the three retention counts. *)
Definition count_keys : list string :=
  ["DLY_BACKUP_COUNT"; "WLY_BACKUP_COUNT"; "MLY_BACKUP_COUNT"].

(** The state in which [main] would call [dump_remote], had the local
    leg left the files [local] behind. *)
Definition before_remote (e : env) (local : gmap string string) : world :=
  ((__init__ e;; read_db e) (fresh local ∅)).2.

(** The local directory once the three files of the day are there. *)
Definition staged : gmap string string :=
  list_to_map [("/backups/DAILY_all_2024-01-02.sql", "-- dump");
               ("/backups/WEEKLY_all_2024-01-02.sql", "-- stale");
               ("/backups/MONTHLY_all_2024-01-02.sql", "-- stale")].

(** The value [_scrape_args] settles on for the key [k] with default
    [dflt]: the command line before the environment before the default. *)
Definition resolved (e : env) (k : string) (dflt : pyval) : pyval :=
  match checkcli (cli_args e) (lower k) with
  | PNone => match getenv e k with
             | Some s => PStr s
             | None => dflt
             end
  | v => v
  end.

(** The attribute that holds the key [k]. *)
Definition attr_of (k : string) : string := "_" +:+ lower k.

(** [os.path.join] on two strings. *)
Definition posix_join (a b : string) : string :=
  if String.prefix "/" b then b
  else if String.eqb a "" || ends_with "/" a then a +:+ b
  else a +:+ "/" +:+ b.

(** A world with two names on the drop list and three local files. *)
Definition dropping : world :=
  World {["_drop_list" := PList ["a.sql"; "b.sql"];
          "_dir_local" := PStr "/backups"]}
    {["/backups/a.sql" := "1"; "/backups/b.sql" := "2";
      "/backups/c.sql" := "3"]} ∅ false false [].

(** The attributes that [_bookkeeping] assigns. *)
Definition bookkeeping_attrs : list string :=
  ["_backup_counts"; "_make_weekly"; "_make_monthly"; "_filename"].

(** The object and the local store are the same after as before. *)
Definition same_obj (w w' : world) : Prop :=
  self w' = self w ∧ local_fs w' = local_fs w.

(** The namespace that [parser.parse_args()] gives for a command line
    without options: every key of the table, in lower case, with its
    default. *)
Definition namespace_defaults : gmap string pyval :=
  list_to_map ((λ kv, (lower kv.1, kv.2)) <$> __DEFAULT_PROPERTIES__).



(** The Tuesday run with [--skip_remote False] on the command line. *)
Definition tuesday_skip_remote : env :=
  Env (getenv tuesday) (<["skip_remote" := PStr "False"]> namespace_defaults)
      (Date 2024 1 2) (int_float_str tuesday) (popen tuesday) remove_dups
      (λ _, None) None (λ _, None) None (λ _, None).

(** The Tuesday run with [--dly_backup_count seven] on the command
    line. *)
Definition tuesday_bad_count : env :=
  Env (getenv tuesday)
      (<["dly_backup_count" := PStr "seven"]> namespace_defaults)
      (Date 2024 1 2) (int_float_str tuesday) (popen tuesday) remove_dups
      (λ _, None) None (λ _, None) None (λ _, None).


(** * Properties *)

(** ** The model on the scenarios of the specification *)

Example scenario_A :
  manage_files remove_dups (BackupCounts 2 1 1)
    ["DAILY_orders_2024-01-01"; "DAILY_orders_2024-01-02";
     "DAILY_orders_2024-01-03"]
  = Ok ["DAILY_orders_2024-01-01"].
Proof. vm_compute. reflexivity. Qed.

Example scenario_B :
  manage_files remove_dups (BackupCounts 2 1 1)
    ["WEEKLY_orders_2024-01-01"; "WEEKLY_orders_2024-01-08"]
  = Ok ["WEEKLY_orders_2024-01-01"].
Proof. vm_compute. reflexivity. Qed.

Example scenario_C :
  manage_files remove_dups (BackupCounts 0 1 1) ["DAILY_x_2024-01-01"]
  = Ok ["DAILY_x_2024-01-01"].
Proof. vm_compute. reflexivity. Qed.

Example scenario_D :
  manage_files remove_dups (BackupCounts 2 2 2)
    ["DAILY_alpha_2024-01-01"; "DAILY_beta_2024-01-01";
     "DAILY_alpha_2024-01-02"; "DAILY_beta_2024-01-02";
     "DAILY_alpha_2024-01-03"; "DAILY_beta_2024-01-03"]
  = Ok ["DAILY_alpha_2024-01-01"; "DAILY_beta_2024-01-01"].
Proof. vm_compute. reflexivity. Qed.

Example sunday : weekday (Date 2024 1 7) = 6%nat.
Proof. vm_compute. reflexivity. Qed.

Example name_of_the_day :
  tier_name WEEKLY (filename "shop crm" (Date 2024 1 7))
  = "WEEKLY_crm-shop_2024-01-07.sql".
Proof. reflexivity. Qed.

(** ** Strings *)

Module StrFacts.
Import Str.

Lemma split_nonempty sep s : split sep s ≠ [].
Proof.
  destruct s as [|c s]; simpl; [done|].
  destruct (Ascii.eqb c sep); [done|].
  by destruct (split sep s).
Qed.

Lemma has_char_app c a b :
  has_char c (a ++ b)%string = has_char c a || has_char c b.
Proof.
  induction a as [|x a IH]; simpl; [done|].
  by rewrite IH, orb_assoc.
Qed.

(** A string without the separator is its own single field. *)
Lemma split_no_sep sep s : has_char sep s = false → split sep s = [s].
Proof.
  induction s as [|c s IH]; simpl; [done|].
  intros [Hc Hs]%orb_false_iff. rewrite Hc, (IH Hs). done.
Qed.

(** The first separator ends the first field. *)
Lemma split_app_sep sep a b :
  has_char sep a = false →
  split sep (a ++ String sep b)%string = a :: split sep b.
Proof.
  induction a as [|c a IH]; simpl.
  - intros _. by rewrite Ascii.eqb_refl.
  - intros [Hc Ha]%orb_false_iff. rewrite Hc, (IH Ha). done.
Qed.

(** No field holds the separator. *)
Lemma split_fields_no_sep sep s :
  Forall (λ f, has_char sep f = false) (split sep s).
Proof.
  induction s as [|c s IH]; simpl.
  - by repeat constructor.
  - destruct (Ascii.eqb c sep) eqn:Hc.
    + by constructor.
    + destruct (split sep s) as [|cur rest].
      { constructor; [simpl; by rewrite Hc|constructor]. }
      inversion_clear IH as [|?? Hcur Hrest].
      constructor; [|done]. simpl. by rewrite Hc, Hcur.
Qed.

(** A character that is not in [s] is in none of its fields. *)
Lemma split_fields_no_char sep c s :
  has_char c s = false → Forall (λ f, has_char c f = false) (split sep s).
Proof.
  induction s as [|x s IH]; simpl.
  - by repeat constructor.
  - intros [Hx Hs]%orb_false_iff. specialize (IH Hs).
    destruct (Ascii.eqb x sep).
    + by constructor.
    + destruct (split sep s) as [|cur rest].
      { constructor; [simpl; by rewrite Hx|constructor]. }
      inversion_clear IH as [|?? Hcur Hrest].
      constructor; [|done]. simpl. by rewrite Hx, Hcur.
Qed.

(** Joining the fields with the separator gives the string back. *)
Lemma join_split sep s : join (String sep "") (split sep s) = s.
Proof.
  induction s as [|c s IH]; simpl; [done|].
  destruct (Ascii.eqb c sep) eqn:Hc.
  - apply Ascii.eqb_eq in Hc as ->.
    pose proof (split_nonempty sep s) as Hne.
    destruct (split sep s) as [|cur rest]; [done|].
    unfold join in *. simpl in *. by rewrite IH.
  - pose proof (split_nonempty sep s) as Hne.
    destruct (split sep s) as [|cur rest]; [done|].
    unfold join in *. simpl in *.
    destruct rest; simpl in *; by rewrite <- IH.
Qed.

(** Three fields without the separator are recovered from their join. *)
Lemma split_join3 sep x y z :
  has_char sep x = false → has_char sep y = false →
  has_char sep z = false →
  split sep (join (String sep "") [x; y; z]) = [x; y; z].
Proof.
  intros Hx Hy Hz. unfold join. simpl.
  change (String sep "" +:+ y +:+ String sep "" +:+ z)
    with (String sep (y +:+ String sep z)).
  rewrite (split_app_sep sep x), (split_app_sep sep y) by done.
  by rewrite split_no_sep.
Qed.

Lemma has_char_join c sep l :
  has_char c sep = false → Forall (λ f, has_char c f = false) l →
  has_char c (join sep l) = false.
Proof.
  intros Hsep. unfold join. induction 1 as [|x l Hx Hl IH]; simpl; [done|].
  destruct l as [|y l]; [done|].
  by rewrite !has_char_app, Hx, Hsep, IH.
Qed.

Lemma insert_sorted_perm x l : insert_sorted x l ≡ₚ x :: l.
Proof.
  induction l as [|y l IH]; simpl; [done|].
  destruct (String.leb x y); [done|].
  rewrite IH. apply Permutation_swap.
Qed.

(** Sorting rearranges. *)
Lemma sort_perm l : sort l ≡ₚ l.
Proof.
  induction l as [|x l IH]; simpl; [done|].
  by rewrite insert_sorted_perm, IH.
Qed.

Lemma sort_length l : length (sort l) = length l.
Proof. by rewrite sort_perm. Qed.

Lemma compare_le_trans a b c :
  String.compare a b ≠ Gt → String.compare b c ≠ Gt →
  String.compare a c ≠ Gt.
Proof.
  revert b c. induction a as [|x a IH]; intros [|y b] [|z c]; simpl;
    try congruence.
  unfold Ascii.compare.
  destruct (N.compare_spec (N_of_ascii x) (N_of_ascii y)) as [Exy|Exy|Exy];
    destruct (N.compare_spec (N_of_ascii y) (N_of_ascii z)) as [Eyz|Eyz|Eyz];
    try congruence;
    destruct (N.compare_spec (N_of_ascii x) (N_of_ascii z)) as [Exz|Exz|Exz];
    try congruence; try lia.
  apply IH.
Qed.

Lemma str_le_trans a b c : str_le a b → str_le b c → str_le a c.
Proof.
  unfold str_le, String.leb. intros Hab Hbc.
  pose proof (compare_le_trans a b c) as H.
  destruct (String.compare a b), (String.compare b c),
    (String.compare a c); try done; exfalso; by apply H.
Qed.

Lemma insert_sorted_hd x y l :
  str_le y x → HdRel str_le y l → HdRel str_le y (insert_sorted x l).
Proof.
  intros Hyx Hl. destruct l as [|z l]; simpl; [by constructor|].
  inversion_clear Hl. destruct (String.leb x z); by constructor.
Qed.

Lemma insert_sorted_sorted x l :
  Sorted str_le l → Sorted str_le (insert_sorted x l).
Proof.
  induction 1 as [|y l Hs IH Hhd]; simpl.
  - by repeat constructor.
  - destruct (String.leb x y) eqn:E.
    + constructor; [by constructor|]. by constructor.
    + constructor; [done|]. apply insert_sorted_hd; [|done].
      by destruct (String.leb_total x y) as [?|?]; [congruence|].
Qed.

(** Sorting sorts: every name is at most the names after it. *)
Lemma sort_sorted l : StronglySorted str_le (sort l).
Proof.
  apply Sorted_StronglySorted; [intros a b c; apply str_le_trans|].
  induction l; simpl; [constructor|by apply insert_sorted_sorted].
Qed.

End StrFacts.

(** ** The retention computation *)

Section Retention.

Context (counts : backup_counts).

(** For a count that is not negative the loop of [prune] moves the
    front of the list, down to [n] names, to the drop list. *)
Lemma prune_spec l n d :
  0 ≤ n →
  prune l n d
  = Ok (drop (length l - Z.to_nat n) l, d ++ take (length l - Z.to_nat n) l).
Proof.
  intros Hn. revert d. induction l as [|f rest IH]; intros d; simpl.
  - destruct (Z.gtb_spec 0 n); [lia|]. by rewrite app_nil_r.
  - destruct (Z.gtb_spec (Z.of_nat (S (length rest))) n).
    + rewrite IH.
      replace (S (length rest) - Z.to_nat n)%nat
        with (S (length rest - Z.to_nat n)) by lia.
      simpl. by rewrite <- app_assoc.
    + replace (S (length rest) - Z.to_nat n)%nat with 0%nat by lia.
      simpl. by rewrite app_nil_r.
Qed.

(** A negative count empties the list and then pops once more. *)
Lemma prune_negative l n d :
  n < 0 → prune l n d = Raise (IndexError "pop from empty list").
Proof.
  intros Hn. revert d. induction l as [|f rest IH]; intros d; simpl.
  - destruct (Z.gtb_spec 0 n); [done|lia].
  - destruct (Z.gtb_spec (Z.of_nat (S (length rest))) n); [apply IH|lia].
Qed.

Lemma prune_sorted_bucket bucket n d :
  0 ≤ n →
  ∃ kept, prune (Str.sort bucket) n d = Ok (kept, d ++ oldest n bucket).
Proof.
  intros Hn. rewrite prune_spec by done. unfold oldest.
  rewrite StrFacts.sort_length. eauto.
Qed.

(** A bucket of [S] names and a count [n] give [S - n] dropped names,
    none when [S] is at most [n], and no kept name sorts before a dropped
    one. *)
Lemma oldest_length n bucket :
  0 ≤ n →
  Z.of_nat (length (oldest n bucket))
  = Z.max 0 (Z.of_nat (length bucket) - n).
Proof.
  intros Hn. unfold oldest.
  rewrite length_take, StrFacts.sort_length. lia.
Qed.

Lemma oldest_before_kept n bucket f g :
  f ∈ oldest n bucket →
  g ∈ drop (length bucket - Z.to_nat n) (Str.sort bucket) →
  str_le f g.
Proof.
  unfold oldest. set (k := (length bucket - Z.to_nat n)%nat).
  pose proof (StrFacts.sort_sorted bucket) as HS.
  rewrite <- (take_drop k (Str.sort bucket)) in HS.
  revert HS. generalize (drop k (Str.sort bucket)) as kept.
  induction (take k (Str.sort bucket)) as [|x front IH]; intros kept HS.
  - by intros ?%elem_of_nil.
  - simpl in HS. apply StronglySorted_inv in HS as [HS Hx].
    intros [->|Hf]%elem_of_cons Hg; [|by eapply IH].
    rewrite Forall_forall in Hx. apply Hx. apply elem_of_app. by right.
Qed.

Hypothesis Hcounts : counts_nonneg counts.

Lemma manage_group_spec X Y Z d y :
  manage_group counts X Y Z d y
  = Ok (d ++ emitted counts (rebuilt X Y Z y)).
Proof.
  destruct Hcounts as (Hd & Hw & Hm).
  unfold manage_group, emitted.
  destruct (prune_sorted_bucket (having "DAILY" (rebuilt X Y Z y))
              (DLY_BACKUP_COUNT counts) d Hd) as [k1 ->].
  simpl.
  destruct (prune_sorted_bucket (having "WEEKLY" (rebuilt X Y Z y))
              (WLY_BACKUP_COUNT counts) (d ++ oldest (DLY_BACKUP_COUNT counts)
                 (having "DAILY" (rebuilt X Y Z y))) Hw) as [k2 ->].
  simpl.
  destruct (prune_sorted_bucket (having "MONTHLY" (rebuilt X Y Z y))
              (MLY_BACKUP_COUNT counts)
              ((d ++ oldest (DLY_BACKUP_COUNT counts)
                 (having "DAILY" (rebuilt X Y Z y)))
               ++ oldest (WLY_BACKUP_COUNT counts)
                 (having "WEEKLY" (rebuilt X Y Z y))) Hm) as [k3 ->].
  simpl. by rewrite <- !app_assoc.
Qed.

Lemma foldR_manage_group X Y Z d ys :
  foldR (manage_group counts X Y Z) d ys
  = Ok (d ++ concat ((λ y, emitted counts (rebuilt X Y Z y)) <$> ys)).
Proof.
  revert d. induction ys as [|y ys IH]; intros d; simpl.
  - by rewrite app_nil_r.
  - rewrite manage_group_spec. simpl. rewrite IH. by rewrite <- app_assoc.
Qed.

(** Once the three columns are unpacked, the drop list is the
    concatenation of what each group emits. *)
Lemma manage_files_spec set_iter file_list X Y Z :
  unpack3 (zip_star (Str.split "_" <$> file_list)) = Ok (X, Y, Z) →
  manage_files set_iter counts file_list
  = Ok (concat ((λ y, emitted counts (rebuilt X Y Z y)) <$> set_iter Y)).
Proof.
  intros HU. unfold manage_files. rewrite HU. simpl.
  by rewrite foldR_manage_group.
Qed.

End Retention.

(** ** The columns [X], [Y], [Z] and the rebuilt names *)

Section Columns.

Lemma unpack3_inv {A} (l : list A) x y z :
  unpack3 l = Ok (x, y, z) → l = [x; y; z].
Proof.
  destruct l as [|a [|b [|c [|e l]]]]; simpl; intros [=]; by subst.
Qed.

Lemma elem_of_concat (x : string) (ls : list (list string)) :
  x ∈ concat ls ↔ ∃ l, l ∈ ls ∧ x ∈ l.
Proof.
  induction ls as [|l ls IH]; simpl.
  - split; [by intros ?%elem_of_nil|]. by intros (l & ?%elem_of_nil & _).
  - rewrite elem_of_app, IH. split.
    + intros [H|(l' & H1 & H2)]; [exists l|exists l'];
        split; try done; [left|by right].
    + intros (l' & [->|H1]%elem_of_cons & H2); [by left|right; eauto].
Qed.

(** Every entry of a column is a field of some row. *)
Lemma zip_star_elem rows col x :
  col ∈ zip_star rows → x ∈ col → ∃ r, r ∈ rows ∧ x ∈ r.
Proof.
  revert col. induction rows as [|r rows IH]; intros col; simpl.
  - by intros ?%elem_of_nil.
  - destruct rows as [|r' rows].
    + intros (a & -> & Ha)%list_elem_of_fmap ->%list_elem_of_singleton.
      exists r. split; [left|done].
    + intros (a & c & -> & Ha & Hc)%elem_of_zip_with [->|Hx]%elem_of_cons.
      * exists r. split; [left|done].
      * destruct (IH c Hc Hx) as (r0 & Hr0 & Hx0).
        exists r0. split; [by right|done].
Qed.

Lemma zip3_elem X Y Z x y z :
  (x, y, z) ∈ zip3 X Y Z → x ∈ X ∧ y ∈ Y ∧ z ∈ Z.
Proof.
  revert Y Z. induction X as [|a X IH]; intros [|b Y] [|c Z]; simpl;
    try by intros ?%elem_of_nil.
  intros [[= -> -> ->]|H]%elem_of_cons.
  - repeat split; left.
  - destruct (IH _ _ H) as (? & ? & ?). repeat split; by right.
Qed.

Context (file_list X Y Z : list string).
Hypothesis Hunpack :
  unpack3 (zip_star (Str.split "_" <$> file_list)) = Ok (X, Y, Z).

(** No entry of [X], [Y] or [Z] holds the separator. *)
Lemma columns_no_sep col x :
  col ∈ [X; Y; Z] → x ∈ col → Str.has_char "_" x = false.
Proof.
  intros Hcol Hx. apply unpack3_inv in Hunpack. rewrite <- Hunpack in Hcol.
  destruct (zip_star_elem _ _ _ Hcol Hx) as (r & Hr & Hxr).
  apply list_elem_of_fmap in Hr as (f & -> & _).
  pose proof (StrFacts.split_fields_no_sep "_" f) as HF.
  rewrite Forall_forall in HF. by apply HF.
Qed.

(** A rebuilt name splits back into the triple it was joined from. *)
Lemma rebuilt_split y f :
  f ∈ rebuilt X Y Z y →
  ∃ x1 x3, x1 ∈ X ∧ y ∈ Y ∧ x3 ∈ Z ∧ f = Str.join "_" [x1; y; x3]
           ∧ Str.split "_" f = [x1; y; x3].
Proof.
  unfold rebuilt.
  intros ([[x1 x2] x3] & -> & [Hy Ht]%list_elem_of_filter)%list_elem_of_fmap.
  simpl in *. subst x2.
  destruct (zip3_elem _ _ _ _ _ _ Ht) as (H1 & H2 & H3).
  exists x1, x3. repeat split; try done.
  apply StrFacts.split_join3.
  - apply (columns_no_sep X); [left|done].
  - apply (columns_no_sep Y); [right; left|done].
  - apply (columns_no_sep Z); [right; right; left|done].
Qed.

Lemma rebuilt_group y f : f ∈ rebuilt X Y Z y → group_of f = Some y.
Proof.
  intros (x1 & x3 & _ & _ & _ & _ & HS)%rebuilt_split.
  unfold group_of. by rewrite HS.
Qed.

End Columns.

(** What a group emits comes from its rebuilt names. *)
Lemma elem_of_oldest n bucket f : f ∈ oldest n bucket → f ∈ bucket.
Proof.
  unfold oldest. intros (i & Hi & _)%elem_of_take.
  rewrite <- (StrFacts.sort_perm bucket).
  by eapply list_elem_of_lookup_2.
Qed.

Lemma elem_of_emitted counts l f :
  f ∈ emitted counts l →
  f ∈ l ∧ ∃ token, token ∈ tier_tokens ∧ Str.contains token f = true.
Proof.
  unfold emitted, having, tier_tokens. rewrite !elem_of_app.
  intros [H|[H|H]]; apply elem_of_oldest, list_elem_of_filter in H as [Hc Hf];
    apply Is_true_true in Hc; (split; [done|]).
  - exists "DAILY". split; [set_solver|done].
  - exists "WEEKLY". split; [set_solver|done].
  - exists "MONTHLY". split; [set_solver|done].
Qed.

(** ** Listings of three-field names *)

Section ThreeFields.

Lemma zip_star_three rows :
  rows ≠ [] → Forall (λ r : list string, length r = 3%nat) rows →
  ∃ X Y Z, zip_star rows = [X; Y; Z] ∧ to_row <$> zip3 X Y Z = rows.
Proof.
  induction rows as [|r rows IH]; [done|]. intros _ Hall.
  inversion_clear Hall as [|?? Hr Hrows].
  destruct r as [|x [|y [|z [|? ?]]]]; try done.
  destruct rows as [|r' rows].
  - exists [x], [y], [z]. done.
  - destruct IH as (X & Y & Z & HZ & HT); [done|done|].
    exists (x :: X), (y :: Y), (z :: Z).
    change (zip_star ([x; y; z] :: r' :: rows))
      with (zip_with cons [x; y; z] (zip_star (r' :: rows))).
    rewrite HZ. split; [done|].
    change (zip3 (x :: X) (y :: Y) (z :: Z)) with ((x, y, z) :: zip3 X Y Z).
    by rewrite fmap_cons, HT.
Qed.

(** With rows that are splits of names, rebuilding gives the names
    back: the rebuilt names of [y] are the names of group [y]. *)
Lemma rebuilt_rows (file_list : list string)
    (T : list (string * string * string)) y :
  to_row <$> T = Str.split "_" <$> file_list →
  (λ t : string * string * string, Str.join "_" [t.1.1; t.1.2; t.2])
    <$> filter (λ t : string * string * string, t.1.2 = y) T
  = filter (λ f, group_of f = Some y) file_list.
Proof.
  revert T. induction file_list as [|f fl IH]; intros [|t T]; try done.
  rewrite !fmap_cons. intros [= Ht HT].
  assert (Str.join "_" [t.1.1; t.1.2; t.2] = f) as Hf.
  { change [t.1.1; t.1.2; t.2] with (to_row t). rewrite Ht.
    apply StrFacts.join_split. }
  assert (group_of f = Some t.1.2) as Hg.
  { unfold group_of. by rewrite <- Ht. }
  rewrite !filter_cons, Hg.
  destruct (decide (t.1.2 = y)) as [->|Hne].
  - rewrite decide_True by done. by rewrite fmap_cons, Hf, (IH T).
  - rewrite decide_False by congruence. by apply IH.
Qed.

Context (file_list : list string).
Hypothesis Hne : file_list ≠ [].
Hypothesis Hthree : three_fields file_list.

Lemma unpack_three :
  ∃ X Y Z,
    unpack3 (zip_star (Str.split "_" <$> file_list)) = Ok (X, Y, Z)
    ∧ (∀ y, rebuilt X Y Z y = filter (λ f, group_of f = Some y) file_list)
    ∧ (∀ f, f ∈ file_list → ∃ y, y ∈ Y ∧ group_of f = Some y).
Proof.
  destruct (zip_star_three (Str.split "_" <$> file_list))
    as (X & Y & Z & HZ & HT).
  { by destruct file_list. }
  { unfold three_fields in Hthree. by rewrite Forall_fmap. }
  exists X, Y, Z. rewrite HZ. split; [done|]. split.
  - intros y. unfold rebuilt. by apply rebuilt_rows.
  - intros f Hf.
    assert (Str.split "_" f ∈ to_row <$> zip3 X Y Z) as Hin.
    { rewrite HT. apply list_elem_of_fmap. eauto. }
    apply list_elem_of_fmap in Hin as ([[x1 y] x3] & Hrow & Ht).
    exists y. split.
    + by destruct (zip3_elem _ _ _ _ _ _ Ht) as (_ & ? & _).
    + unfold group_of. by rewrite Hrow.
Qed.

End ThreeFields.

(** The drop list of a listing of three-field names: group by group, the
    front of each of the three sorted buckets. *)
Lemma manage_files_three_fields set_iter counts file_list :
  counts_nonneg counts → file_list ≠ [] → three_fields file_list →
  manage_files set_iter counts file_list
  = Ok (concat ((λ y, emitted counts
                        (filter (λ f, group_of f = Some y) file_list))
                  <$> set_iter (column_Y file_list))).
Proof.
  intros Hc Hne H3.
  destruct (unpack_three file_list Hne H3) as (X & Y & Z & HU & HR & _).
  rewrite (manage_files_spec counts Hc set_iter _ X Y Z HU).
  unfold column_Y. rewrite HU. do 2 f_equal.
  apply list_fmap_ext. intros _ y _. by rewrite HR.
Qed.

(** ** Claims on the retention computation *)

(** C4.  The claim is that the empty listing gives the empty deletion
    set.  The code does not get that far: [zip] yields nothing, and
    unpacking nothing into [X, Y, Z] raises [ValueError] before
    [self._drop_list] is even set.  This holds for every policy and every
    iteration order. *)
Theorem manage_files_empty_listing set_iter counts :
  manage_files set_iter counts []
  = Raise (ValueError "not enough values to unpack").
Proof. reflexivity. Qed.

(** C1.  The buckets are formed with [token in name] on the whole name,
    not on the tier field, so a group whose name holds a tier token puts
    its names in that tier's bucket too.  Here the group MONTHLYX has
    two daily names, fewer than the daily count of five, and one monthly
    name with a monthly count of one: the monthly bucket holds all three
    names, and both daily names are dropped while the monthly one stays.
    There is one group only, so the order of the groups plays no part. *)
Theorem tier_token_in_group_name :
  rebuilt ["DAILY"; "DAILY"; "MONTHLY"] ["MONTHLYX"; "MONTHLYX"; "MONTHLYX"]
    ["2024-01-01.sql"; "2024-01-02.sql"; "2024-01-01.sql"] "MONTHLYX"
  = monthlyx_listing
  ∧ having "DAILY" monthlyx_listing
    = ["DAILY_MONTHLYX_2024-01-01.sql"; "DAILY_MONTHLYX_2024-01-02.sql"]
  ∧ having "MONTHLY" monthlyx_listing = monthlyx_listing
  ∧ manage_files remove_dups (BackupCounts 5 5 1) monthlyx_listing
    = Ok ["DAILY_MONTHLYX_2024-01-01.sql"; "DAILY_MONTHLYX_2024-01-02.sql"].
Proof. repeat split; vm_compute; reflexivity. Qed.

(** What [manage_group] appends comes from the rebuilt names of [y],
    whatever the counts. *)
Lemma prune_appends l n d kept d' :
  prune l n d = Ok (kept, d') → ∃ e, d' = d ++ e ∧ ∀ f, f ∈ e → f ∈ l.
Proof.
  revert d. induction l as [|f rest IH]; intros d; simpl.
  - destruct (0 >? n); [done|]. intros [= <- <-].
    exists []. by rewrite app_nil_r.
  - destruct (Z.of_nat (S (length rest)) >? n).
    + intros (e & -> & He)%IH. exists (f :: e). rewrite <- app_assoc.
      split; [done|]. intros g [->|Hg]%elem_of_cons; [left|right; auto].
    + intros [= <- <-]. exists []. rewrite app_nil_r.
      split; [done|]. by intros g ?%elem_of_nil.
Qed.

Lemma manage_group_appends counts X Y Z d y d' :
  manage_group counts X Y Z d y = Ok d' →
  ∃ e, d' = d ++ e ∧ ∀ f, f ∈ e → f ∈ rebuilt X Y Z y.
Proof.
  unfold manage_group.
  destruct (prune (Str.sort (having "DAILY" _)) _ d) as [[k1 d1]|] eqn:E1;
    [simpl|done].
  destruct (prune (Str.sort (having "WEEKLY" _)) _ d1) as [[k2 d2]|] eqn:E2;
    [simpl|done].
  destruct (prune (Str.sort (having "MONTHLY" _)) _ d2) as [[k3 d3]|] eqn:E3;
    [simpl|done].
  intros [= <-].
  apply prune_appends in E1 as (e1 & -> & H1).
  apply prune_appends in E2 as (e2 & -> & H2).
  apply prune_appends in E3 as (e3 & -> & H3).
  exists (e1 ++ e2 ++ e3). rewrite <- !app_assoc. split; [done|].
  assert (∀ token f, f ∈ Str.sort (having token (rebuilt X Y Z y))
                     → f ∈ rebuilt X Y Z y) as Hin.
  { intros token f. rewrite StrFacts.sort_perm. unfold having.
    by intros [_ ?]%list_elem_of_filter. }
  intros f. rewrite !elem_of_app. intros [?|[?|?]]; eapply Hin; eauto.
Qed.

(** C10.  While [manage_files] works on the group [y], every name it
    appends to the drop list has [y] as its group, so a name of the
    listing that belongs to another group is not among them. *)
Theorem pruning_is_per_group counts file_list X Y Z y drop_list drop_list' :
  unpack3 (zip_star (Str.split "_" <$> file_list)) = Ok (X, Y, Z) →
  manage_group counts X Y Z drop_list y = Ok drop_list' →
  ∃ emitted_y,
    drop_list' = drop_list ++ emitted_y
    ∧ (∀ f, f ∈ emitted_y → group_of f = Some y)
    ∧ (∀ g, g ∈ file_list → group_of g ≠ Some y → g ∉ emitted_y).
Proof.
  intros HU (e & -> & He)%manage_group_appends.
  assert (∀ f, f ∈ e → group_of f = Some y) as Hgroup.
  { intros f Hf. eapply rebuilt_group; eauto. }
  exists e. repeat split; [done|].
  intros g _ Hg Hin. by apply Hg, Hgroup.
Qed.

Lemma pruning_is_per_group_witness :
  ∃ emitted_y,
    ["DAILY_alpha_2024-01-01"; "DAILY_beta_2024-01-01"]
    = ["DAILY_alpha_2024-01-01"] ++ emitted_y
    ∧ (∀ f, f ∈ emitted_y → group_of f = Some "beta")
    ∧ (∀ g, g ∈ ["DAILY_alpha_2024-01-01"; "DAILY_beta_2024-01-01";
                 "DAILY_alpha_2024-01-02"; "DAILY_beta_2024-01-02";
                 "DAILY_alpha_2024-01-03"; "DAILY_beta_2024-01-03"]
           → group_of g ≠ Some "beta" → g ∉ emitted_y).
Proof.
  apply (pruning_is_per_group (BackupCounts 2 2 2) _
           ["DAILY"; "DAILY"; "DAILY"; "DAILY"; "DAILY"; "DAILY"]
           ["alpha"; "beta"; "alpha"; "beta"; "alpha"; "beta"]
           ["2024-01-01"; "2024-01-01"; "2024-01-02"; "2024-01-02";
            "2024-01-03"; "2024-01-03"]);
    vm_compute; reflexivity.
Defined.

(** C2, as the code has it.  [manage_files] does not validate names.  On
    a listing that is not empty and whose names all have exactly three
    fields it does not fail for counts that are not negative, and every
    name of its drop list is a name of the listing that holds one of the
    tokens DAILY, WEEKLY, MONTHLY: a name that holds none of them is
    left alone. *)
Theorem names_without_tier_token_are_kept set_iter counts file_list :
  counts_nonneg counts → file_list ≠ [] → three_fields file_list →
  ∃ drop_list,
    manage_files set_iter counts file_list = Ok drop_list
    ∧ ∀ f, f ∈ drop_list →
        f ∈ file_list
        ∧ ∃ token, token ∈ tier_tokens ∧ Str.contains token f = true.
Proof.
  intros Hc Hne H3.
  destruct (unpack_three file_list Hne H3) as (X & Y & Z & HU & HR & _).
  eexists. split; [by apply manage_files_spec|].
  intros f (l & (y & -> & _)%list_elem_of_fmap & Hf)%elem_of_concat.
  apply elem_of_emitted in Hf as [Hf Htok]. split; [|done].
  rewrite HR in Hf. by apply list_elem_of_filter in Hf as [_ ?].
Qed.

Lemma names_without_tier_token_are_kept_witness :
  ∃ drop_list,
    manage_files remove_dups (BackupCounts 1 1 1)
      ["DAILY_orders_2024-01-01.sql"; "DAILY_orders_2024-01-02.sql";
       "notes_orders_draft"] = Ok drop_list
    ∧ ∀ f, f ∈ drop_list →
        f ∈ ["DAILY_orders_2024-01-01.sql"; "DAILY_orders_2024-01-02.sql";
             "notes_orders_draft"]
        ∧ ∃ token, token ∈ tier_tokens ∧ Str.contains token f = true.
Proof.
  apply (names_without_tier_token_are_kept remove_dups (BackupCounts 1 1 1)).
  - unfold counts_nonneg. simpl. lia.
  - discriminate.
  - unfold three_fields. repeat constructor.
Defined.

(** C2, counterexample.  One name with a single field aborts the whole
    computation, and a name whose last field is no date is selected for
    deletion like any other. *)
Lemma malformed_names_not_skipped :
  manage_files remove_dups (BackupCounts 5 5 5)
    ["DAILY_orders_2024-01-01.sql"; "README"]
  = Raise (ValueError "not enough values to unpack")
  ∧ manage_files remove_dups (BackupCounts 0 0 0) ["DAILY_orders_yesterday"]
    = Ok ["DAILY_orders_yesterday"].
Proof. split; vm_compute; reflexivity. Qed.

(** ** Running the computation again *)

Lemma filter_comm {A} (P Q : A → Prop) `{!∀ x, Decision (P x)}
    `{!∀ x, Decision (Q x)} (l : list A) :
  filter P (filter Q l) = filter Q (filter P l).
Proof.
  induction l as [|x l IH]; [done|].
  rewrite !filter_cons.
  destruct (decide (Q x)), (decide (P x));
    rewrite ?filter_cons, ?decide_True, ?decide_False by done; by rewrite IH.
Qed.

Lemma filter_none {A} (P : A → Prop) `{!∀ x, Decision (P x)} (l : list A) :
  (∀ x, x ∈ l → ¬ P x) → filter P l = [].
Proof.
  induction l as [|x l IH]; [done|]. intros Hall.
  rewrite filter_cons, decide_False by (apply Hall; left).
  apply IH. intros y Hy. apply Hall. by right.
Qed.

Lemma oldest_nil n bucket :
  (length bucket ≤ Z.to_nat n)%nat → oldest n bucket = [].
Proof.
  intros H. unfold oldest.
  by replace (length bucket - Z.to_nat n)%nat with 0%nat by lia.
Qed.

(** Once the oldest names of a bucket are deleted, at most [n] are left. *)
Lemma bucket_after_removal (deleted bucket : list string) n :
  (∀ f, f ∈ oldest n bucket → f ∈ deleted) →
  (length (filter (λ f, f ∉ deleted) bucket) ≤ Z.to_nat n)%nat.
Proof.
  intros Hdel.
  rewrite <- (StrFacts.sort_perm bucket) at 1.
  unfold oldest in Hdel. rewrite <- (StrFacts.sort_length bucket) in Hdel.
  set (k := (length (Str.sort bucket) - Z.to_nat n)%nat) in *.
  rewrite <- (take_drop k (Str.sort bucket)), filter_app, length_app.
  assert (filter (λ f, f ∉ deleted) (take k (Str.sort bucket)) = []) as ->.
  { apply filter_none. intros f Hf Hnot. by apply Hnot, Hdel. }
  simpl. etrans; [apply length_filter|]. rewrite length_drop. lia.
Qed.

Section Idempotence.

Context (set_iter : list string → list string) (counts : backup_counts).
Context (file_list drop_list : list string).
Hypothesis Hcounts : counts_nonneg counts.
Hypothesis Hthree : three_fields file_list.
Hypothesis Hiter : set_iter_on set_iter (column_Y file_list).
Hypothesis Hfirst : manage_files set_iter counts file_list = Ok drop_list.

(** Every bucket of the first run has its oldest names in the drop
    list. *)
Lemma first_run_covers y f :
  f ∈ emitted counts (filter (λ g, group_of g = Some y) file_list) →
  f ∈ drop_list.
Proof using Hcounts Hthree Hiter Hfirst.
  intros Hf.
  assert (file_list ≠ []) as Hne.
  { intros ->. by apply elem_of_emitted in Hf as [?%elem_of_nil _]. }
  destruct (unpack_three file_list Hne Hthree) as (X & Y & Z & HU & HR & HY).
  rewrite (manage_files_spec counts Hcounts set_iter _ X Y Z HU) in Hfirst.
  injection Hfirst as <-.
  apply elem_of_concat. eexists. split; [|by rewrite <- HR in Hf].
  apply list_elem_of_fmap. exists y. split; [done|].
  assert (column_Y file_list = Y) as HYc.
  { unfold column_Y. by rewrite HU. }
  destruct Hiter as (_ & _ & Hall). rewrite HYc, Forall_forall in Hall.
  apply Hall.
  apply elem_of_emitted in Hf as [[Hg Hin]%list_elem_of_filter _].
  destruct (HY _ Hin) as (y' & Hy' & Hg'). congruence.
Qed.

(** In the listing without the dropped names no bucket emits. *)
Lemma second_run_emits_nothing y :
  emitted counts
    (filter (λ g, group_of g = Some y) (without drop_list file_list)) = [].
Proof using Hcounts Hthree Hiter Hfirst.
  unfold without. rewrite filter_comm.
  unfold emitted, having. rewrite !(filter_comm _ (λ f, f ∉ drop_list)).
  rewrite !oldest_nil; [done|..];
    apply bucket_after_removal; intros f Hf; apply (first_run_covers y);
    unfold emitted, having; rewrite !elem_of_app; auto.
Qed.

End Idempotence.

(** C6, as the code has it.  For a listing of three-field names and
    counts that are not negative, let [drop_list] be what [manage_files]
    computes.  If names are left once those of [drop_list] are removed,
    [manage_files] on what is left succeeds with the empty drop list. *)
Theorem manage_files_idempotent set_iter counts file_list drop_list :
  counts_nonneg counts → three_fields file_list →
  set_iter_on set_iter (column_Y file_list) →
  manage_files set_iter counts file_list = Ok drop_list →
  without drop_list file_list ≠ [] →
  manage_files set_iter counts (without drop_list file_list) = Ok [].
Proof.
  intros Hc H3 Hiter Hfirst Hne.
  assert (three_fields (without drop_list file_list)) as H3'.
  { unfold three_fields, without in *. rewrite Forall_forall in *.
    intros f [_ ?]%list_elem_of_filter. auto. }
  destruct (unpack_three _ Hne H3') as (X & Y & Z & HU & HR & _).
  rewrite (manage_files_spec counts Hc set_iter _ X Y Z HU).
  f_equal. induction (set_iter Y) as [|y ys IH]; [done|].
  rewrite fmap_cons. simpl. rewrite IH, HR.
  by rewrite (second_run_emits_nothing set_iter counts file_list drop_list).
Qed.

Lemma manage_files_idempotent_witness :
  manage_files remove_dups (BackupCounts 2 1 1)
    (without ["DAILY_orders_2024-01-01"]
       ["DAILY_orders_2024-01-01"; "DAILY_orders_2024-01-02";
        "DAILY_orders_2024-01-03"])
  = Ok [].
Proof.
  apply manage_files_idempotent.
  - unfold counts_nonneg. simpl. lia.
  - unfold three_fields. repeat constructor.
  - unfold set_iter_on. apply (bool_decide_unpack _). vm_compute. exact I.
  - vm_compute. reflexivity.
  - vm_compute. discriminate.
Defined.

(** C6, counterexample.  First, the listing of one daily name with a
    daily count of zero: the name is dropped, and on the listing that is
    left, the empty one, the computation raises.  Second, a listing with
    names of four fields next to one of three: the drop list names no
    file of the listing, so nothing is removed and the second run drops
    the same name again. *)
Lemma manage_files_not_idempotent :
  (manage_files remove_dups (BackupCounts 0 1 1) ["DAILY_x_2024-01-01"]
   = Ok ["DAILY_x_2024-01-01"]
   ∧ manage_files remove_dups (BackupCounts 0 1 1)
       (without ["DAILY_x_2024-01-01"] ["DAILY_x_2024-01-01"])
     = Raise (ValueError "not enough values to unpack"))
  ∧ (manage_files remove_dups (BackupCounts 2 2 2)
       ["DAILY_my_db_2024-01-01.sql"; "DAILY_my_db_2024-01-02.sql";
        "DAILY_my_db_2024-01-03.sql"; "DAILY_other_2024-01-01.sql"]
     = Ok ["DAILY_my_db"]
     ∧ manage_files remove_dups (BackupCounts 2 2 2)
         (without ["DAILY_my_db"]
            ["DAILY_my_db_2024-01-01.sql"; "DAILY_my_db_2024-01-02.sql";
             "DAILY_my_db_2024-01-03.sql"; "DAILY_other_2024-01-01.sql"])
       = Ok ["DAILY_my_db"]).
Proof. repeat split; vm_compute; reflexivity. Qed.

(** ** Artifact names *)

Section Naming.

Lemma digit_not_sep n : Ascii.eqb (digit n) "_" = false.
Proof.
  unfold digit.
  by destruct (n mod 10)%nat as [|[|[|[|[|[|[|[|[|?]]]]]]]]].
Qed.

Lemma digit_inj a b : digit a = digit b → (a mod 10 = b mod 10)%nat.
Proof.
  unfold digit.
  pose proof (Nat.mod_upper_bound a 10 ltac:(done)) as Ha.
  pose proof (Nat.mod_upper_bound b 10 ltac:(done)) as Hb.
  destruct (a mod 10)%nat as [|[|[|[|[|[|[|[|[|[|?]]]]]]]]]]; try lia;
    destruct (b mod 10)%nat as [|[|[|[|[|[|[|[|[|[|?]]]]]]]]]]; try lia;
    by intros [=].
Qed.

Ltac nat_digits :=
  repeat match goal with
         | H : (_ mod _ = _ mod _)%nat |- _ =>
             apply (f_equal Z.of_nat) in H;
             repeat (rewrite ?Nat2Z.inj_mod, ?Nat2Z.inj_div in H)
         end;
  apply Nat2Z.inj;
  change (Z.of_nat 10) with 10 in *; change (Z.of_nat 100) with 100 in *;
  change (Z.of_nat 1000) with 1000 in *;
  Z.to_euclidean_division_equations; lia.

Lemma pad2_inj a b :
  Z.of_nat a < 100 → Z.of_nat b < 100 → pad2 a = pad2 b → a = b.
Proof.
  unfold pad2. intros Ha Hb H.
  assert (digit (a / 10) = digit (b / 10)) as H1%digit_inj by congruence.
  assert (digit a = digit b) as H0%digit_inj by congruence.
  clear H. nat_digits.
Qed.

Lemma pad4_inj a b :
  Z.of_nat a ≤ 9999 → Z.of_nat b ≤ 9999 → pad4 a = pad4 b → a = b.
Proof.
  unfold pad4, pad2. intros Ha Hb H.
  assert (digit (a / 1000) = digit (b / 1000)) as H3%digit_inj by congruence.
  assert (digit (a / 100) = digit (b / 100)) as H2%digit_inj by congruence.
  assert (digit (a / 10) = digit (b / 10)) as H1%digit_inj by congruence.
  assert (digit a = digit b) as H0%digit_inj by congruence.
  clear H. nat_digits.
Qed.

Lemma days_in_month_bound y m : (days_in_month y m ≤ 31)%nat.
Proof.
  unfold days_in_month.
  destruct m as [|[|[|[|[|[|[|[|[|[|[|[|?]]]]]]]]]]]];
    try destruct (is_leap y); lia.
Qed.

Lemma digit_not_dash n : digit n ≠ "-"%char.
Proof.
  unfold digit.
  by destruct (n mod 10)%nat as [|[|[|[|[|[|[|[|[|?]]]]]]]]].
Qed.

Lemma append_assoc_l a b c : (a +:+ b) +:+ c = a +:+ (b +:+ c).
Proof.
  induction a as [|x a IH]; [done|].
  change (String x a +:+ b) with (String x (a +:+ b)).
  change (String x (a +:+ b) +:+ c) with (String x ((a +:+ b) +:+ c)).
  change (String x a +:+ (b +:+ c)) with (String x (a +:+ (b +:+ c))).
  by rewrite IH.
Qed.

(** The formatted date with its suffix: the year, then the nine
    characters of month and day, then [.sql]. *)
Lemma strftime_Ymd_sql d :
  strftime_Ymd d +:+ ".sql"
  = strftime_Y (year d)
    +:+ String "-" (String (digit (month d / 10)) (String (digit (month d))
          (String "-" (String (digit (day d / 10))
          (String (digit (day d)) ".sql"))))).
Proof. unfold strftime_Ymd. by rewrite append_assoc_l. Qed.

Lemma strftime_Y_four y : (1000 ≤ y)%nat → strftime_Y y = pad4 y.
Proof.
  intros Hy. unfold strftime_Y.
  destruct (Nat.ltb_spec y 10); [lia|].
  destruct (Nat.ltb_spec y 100); [lia|].
  destruct (Nat.ltb_spec y 1000); [lia|done].
Qed.

Lemma string_cons_inv a s b t : String a s = String b t → a = b ∧ s = t.
Proof. by intros [= -> ->]. Qed.

Ltac string_eqs :=
  repeat match goal with
         | H : String _ _ = String _ _ |- _ =>
             apply string_cons_inv in H as [? ?]
         end;
  try match goal with
      | H : digit _ = "-"%char |- _ => destruct (digit_not_dash _ H)
      | H : "-"%char = digit _ |- _ =>
          destruct (digit_not_dash _ (eq_sym H))
      end.

(** The year is read back from the front of the string, whatever its
    number of digits: the dash ends it. *)
Lemma strftime_Y_inj y y' r r' :
  Z.of_nat y ≤ 9999 → Z.of_nat y' ≤ 9999 →
  strftime_Y y +:+ String "-" r = strftime_Y y' +:+ String "-" r' →
  y = y' ∧ r = r'.
Proof.
  intros Hy Hy'. unfold strftime_Y.
  destruct (Nat.ltb_spec y 10); [|destruct (Nat.ltb_spec y 100);
    [|destruct (Nat.ltb_spec y 1000)]];
  (destruct (Nat.ltb_spec y' 10); [|destruct (Nat.ltb_spec y' 100);
    [|destruct (Nat.ltb_spec y' 1000)]]);
  cbv [append pad4 pad2]; intros Heq; string_eqs;
  (split; [|assumption]);
  repeat match goal with
         | H : digit _ = digit _ |- _ => apply digit_inj in H
         end;
  nat_digits.
Qed.

(** Distinct dates are formatted differently. *)
Lemma strftime_Ymd_sql_inj d d' :
  valid_date d → valid_date d' →
  strftime_Ymd d +:+ ".sql" = strftime_Ymd d' +:+ ".sql" → d = d'.
Proof.
  intros (Hy & Hm & Hd) (Hy' & Hm' & Hd').
  pose proof (days_in_month_bound (year d) (month d)).
  pose proof (days_in_month_bound (year d') (month d')).
  rewrite !strftime_Ymd_sql.
  intros [HY Heq]%strftime_Y_inj; [|lia..].
  string_eqs.
  assert (pad2 (month d) = pad2 (month d')) as HM%pad2_inj
    by (unfold pad2; congruence); [|lia..].
  assert (pad2 (day d) = pad2 (day d')) as HD%pad2_inj
    by (unfold pad2; congruence); [|lia..].
  destruct d, d'. simpl in *. congruence.
Qed.

Lemma strftime_Y_no_sep y : Str.has_char "_" (strftime_Y y) = false.
Proof.
  unfold strftime_Y. repeat case_match;
    cbv [pad4 pad2 Str.has_char]; by rewrite !digit_not_sep.
Qed.

Lemma strftime_Ymd_no_sep d :
  Str.has_char "_" (strftime_Ymd d +:+ ".sql") = false.
Proof.
  rewrite strftime_Ymd_sql, StrFacts.has_char_app, strftime_Y_no_sep.
  cbv [Str.has_char]. rewrite !digit_not_sep. reflexivity.
Qed.

Lemma tier_token_no_sep t : Str.has_char "_" (tier_token t) = false.
Proof. by destruct t. Qed.

Lemma tier_token_inj t t' : tier_token t = tier_token t' → t = t'.
Proof. by destruct t, t'. Qed.

(** Without an underscore in [DATABASES] there is none in the group
    key. *)
Lemma group_key_no_sep databases :
  Str.has_char "_" databases = false →
  Str.has_char "_" (group_key databases) = false.
Proof.
  intros H. unfold group_key. apply StrFacts.has_char_join; [done|].
  rewrite StrFacts.sort_perm. by apply StrFacts.split_fields_no_char.
Qed.

End Naming.

(** C5, as the code has it.  When no database name holds an underscore,
    the name built by [_bookkeeping] and the tier prefix splits on the
    underscore into exactly three fields: the tier token, the group key
    and the formatted date followed by [.sql]; the token determines the
    tier and the formatted date determines the calendar date. *)
Theorem artifact_name_round_trip t databases today :
  Str.has_char "_" databases = false → valid_date today →
  Str.split "_" (tier_name t (filename databases today))
  = [tier_token t; group_key databases; strftime_Ymd today +:+ ".sql"]
  ∧ (∀ t', tier_token t' = tier_token t → t' = t)
  ∧ (∀ d', valid_date d' →
       strftime_Ymd d' +:+ ".sql" = strftime_Ymd today +:+ ".sql" →
       d' = today).
Proof.
  intros Hdb Hvalid. repeat split.
  - unfold tier_name, filename.
    change ("_" +:+ ?r) with (String "_" r).
    rewrite (StrFacts.split_app_sep "_" (tier_token t))
      by apply tier_token_no_sep.
    change ("_" +:+ ?r) with (String "_" r).
    rewrite (StrFacts.split_app_sep "_" (group_key databases))
      by by apply group_key_no_sep.
    by rewrite StrFacts.split_no_sep by apply strftime_Ymd_no_sep.
  - intros t'. apply tier_token_inj.
  - intros d' Hd' Heq. by apply strftime_Ymd_sql_inj.
Qed.

Lemma artifact_name_round_trip_witness :
  Str.split "_" (tier_name WEEKLY (filename "shop crm" (Date 2024 1 7)))
  = [tier_token WEEKLY; group_key "shop crm";
     strftime_Ymd (Date 2024 1 7) +:+ ".sql"]
  ∧ (∀ t', tier_token t' = tier_token WEEKLY → t' = WEEKLY)
  ∧ (∀ d', valid_date d' →
       strftime_Ymd d' +:+ ".sql" = strftime_Ymd (Date 2024 1 7) +:+ ".sql" →
       d' = Date 2024 1 7).
Proof.
  apply (artifact_name_round_trip WEEKLY "shop crm" (Date 2024 1 7)).
  - reflexivity.
  - unfold valid_date. simpl. lia.
Defined.

(** C5, counterexample.  A database name with an underscore gives a
    name of four fields; alone in a listing it makes [manage_files]
    raise. *)
Lemma underscore_in_database_name :
  Str.split "_" (tier_name DAILY (filename "my_db" (Date 2024 1 1)))
  = ["DAILY"; "my"; "db"; "2024-01-01.sql"]
  ∧ manage_files remove_dups (BackupCounts 5 5 5)
      [tier_name DAILY (filename "my_db" (Date 2024 1 1))]
    = Raise (ValueError "too many values to unpack (expected 3)").
Proof. split; vm_compute; reflexivity. Qed.

(** ** Runs of the methods *)

Section Preservation.

Context (P : world → world → Prop) `{!PreOrder P}.

Lemma preserves_ret {A} (a : A) : preserves P (mret a).
Proof. intros w r w' [= <- <-]. reflexivity. Qed.

Lemma preserves_raise {A} ex : preserves P (@raise A ex).
Proof. intros w r w' [= <- <-]. reflexivity. Qed.

Lemma preserves_lift {A} (x : result A) : preserves P (lift x).
Proof. intros w r w' [= <- <-]. reflexivity. Qed.

Lemma preserves_bind {A B} (m : M A) (k : A → M B) :
  preserves P m → (∀ a, preserves P (k a)) → preserves P (m ≫= k).
Proof.
  intros Hm Hk w r w'. unfold mbind, M_bind.
  destruct (m w) as [[a|ex] w1] eqn:E.
  - intros H. etrans; [by eapply Hm|by eapply Hk].
  - intros [= <- <-]. by eapply Hm.
Qed.

Lemma preserves_for_each {A} (l : list A) (body : A → M unit) :
  Forall (λ a, preserves P (body a)) l → preserves P (for_each l body).
Proof.
  induction 1 as [|a l Ha Hl IH]; simpl.
  - apply preserves_ret.
  - apply preserves_bind; [done|]. by intros _.
Qed.

Lemma preserves_get_attr name : preserves P (get_attr name).
Proof.
  intros w r w'. unfold get_attr.
  destruct (self w !! name); intros [= <- <-]; reflexivity.
Qed.

End Preservation.

#[global] Instance quiet_preorder name : PreOrder (quiet name).
Proof.
  split.
  - intros w. repeat split. exists []. by rewrite app_nil_r.
  - intros w1 w2 w3 (H1 & H2 & H3 & H4 & H5 & c1 & H6)
      (G1 & G2 & G3 & G4 & G5 & c2 & G6).
    repeat split; try congruence.
    exists (c1 ++ c2). by rewrite G6, H6, fmap_app, app_assoc.
Qed.

Section Quiet.

Context (name : string).

Lemma quiet_set_attr k v : k ≠ name → preserves (quiet name) (set_attr k v).
Proof.
  intros Hk w r w' [= <- <-]. simpl. repeat split.
  - by apply lookup_insert_ne.
  - exists []. by rewrite app_nil_r.
Qed.

Lemma quiet_popen cmd : preserves (quiet name) (log (EPopen cmd)).
Proof. intros w r w' [= <- <-]. simpl. repeat split. by exists [cmd]. Qed.

End Quiet.

(** No key of [__DEFAULT_PROPERTIES__] gives the attribute
    [_skip_local], and neither [_bookkeeping] nor [read_db] assigns it. *)
Lemma scrape_one_quiet e kv :
  "_" +:+ lower kv.1 ≠ "_skip_local" →
  preserves (quiet "_skip_local") (scrape_one e kv).
Proof. intros H. unfold scrape_one. by apply quiet_set_attr. Qed.

Lemma _scrape_args_quiet e : preserves (quiet "_skip_local") (_scrape_args e).
Proof.
  unfold _scrape_args.
  apply (preserves_for_each (quiet "_skip_local")).
  unfold __DEFAULT_PROPERTIES__.
  repeat (apply Forall_cons; split;
          [apply scrape_one_quiet; vm_compute; discriminate|]).
  apply Forall_nil_2.
Qed.

Lemma _bookkeeping_quiet e : preserves (quiet "_skip_local") (_bookkeeping e).
Proof.
  unfold _bookkeeping.
  repeat (first
    [ apply (preserves_bind (quiet "_skip_local")); [|intros ?]
    | apply (preserves_get_attr (quiet "_skip_local"))
    | apply (preserves_lift (quiet "_skip_local"))
    | apply quiet_set_attr; discriminate ]).
  match goal with
  | |- preserves _ (match ?d with _ => _ end) => destruct d
  end;
    first [ apply quiet_set_attr; discriminate
          | apply (preserves_raise (quiet "_skip_local")) ].
Qed.

Lemma __init__quiet e : preserves (quiet "_skip_local") (__init__ e).
Proof.
  unfold __init__. apply (preserves_bind (quiet "_skip_local")).
  - apply _scrape_args_quiet.
  - intros _. apply _bookkeeping_quiet.
Qed.

Ltac quiet_steps :=
  repeat (first
    [ apply (preserves_bind (quiet "_skip_local")); [|intros ?]
    | apply (preserves_get_attr (quiet "_skip_local"))
    | apply (preserves_lift (quiet "_skip_local"))
    | apply (preserves_ret (quiet "_skip_local"))
    | apply (preserves_raise (quiet "_skip_local"))
    | apply quiet_popen
    | apply quiet_set_attr; discriminate ]).

Lemma read_db_quiet e : preserves (quiet "_skip_local") (read_db e).
Proof.
  unfold read_db, _create_dump_cmd. quiet_steps.
  match goal with |- preserves _ (if ?b then _ else _) => destruct b end;
    quiet_steps.
Qed.

(** Without the attribute, [dump_local] stops at its first line. *)
Lemma dump_local_no_attr e debug w :
  self w !! "_skip_local" = None →
  dump_local e debug w = (Raise (AttributeError "_skip_local"), w).
Proof.
  intros H. unfold dump_local, mbind, M_bind, get_attr. by rewrite H.
Qed.

(** [read_db] raises as soon as the error output is not empty. *)
Lemma read_db_raises_on_stderr e w r w' :
  (∀ cmd, dump_stderr (popen e cmd) ≠ "") →
  read_db e w = (r, w') → ∃ ex, r = Raise ex.
Proof.
  intros Herr.
  unfold read_db, mbind, M_bind, log, set_attr, get_attr, raise, mret, M_ret.
  destruct (_create_dump_cmd w) as [[cmd|ex] w1]; [|intros [= <- _]; eauto].
  simpl. rewrite lookup_insert_eq. simpl.
  destruct (String.eqb_spec (dump_stderr (popen e cmd)) "") as [Hs|Hs].
  - by destruct (Herr cmd).
  - simpl. intros [= <- _]. eauto.
Qed.

(** The exit status of the dump process plays no part: with an empty
    error output [read_db] returns, whatever the status. *)
Lemma read_db_ignores_returncode e w cmd w1 :
  _create_dump_cmd w = (Ok cmd, w1) →
  dump_stderr (popen e cmd) = "" →
  ∃ w', read_db e w = (Ok (), w').
Proof.
  intros Hcmd Herr.
  unfold read_db, mbind, M_bind, log, set_attr, get_attr, raise, mret, M_ret.
  rewrite Hcmd. simpl. rewrite lookup_insert_eq. simpl. rewrite Herr.
  simpl. eauto.
Qed.

(** C3.  On an object that [__init__] has built, before or after
    [read_db], [dump_local] raises [AttributeError] for [_skip_local]
    and leaves the world as it was: nothing is written, listed or
    removed. *)
Theorem dump_local_raises_attribute_error e debug w w1 :
  self w !! "_skip_local" = None →
  __init__ e w = (Ok (), w1) →
  dump_local e debug w1 = (Raise (AttributeError "_skip_local"), w1)
  ∧ ∀ w2, read_db e w1 = (Ok (), w2) →
          dump_local e debug w2 = (Raise (AttributeError "_skip_local"), w2).
Proof.
  intros Hnone Hinit.
  destruct (__init__quiet e _ _ _ Hinit) as (H1 & _).
  split.
  - apply dump_local_no_attr. congruence.
  - intros w2 Hread.
    destruct (read_db_quiet e _ _ _ Hread) as (H2 & _).
    apply dump_local_no_attr. congruence.
Qed.

Lemma dump_local_raises_attribute_error_witness :
  dump_local tuesday false (__init__ tuesday (fresh ∅ ∅)).2
  = (Raise (AttributeError "_skip_local"), (__init__ tuesday (fresh ∅ ∅)).2)
  ∧ ∀ w2, read_db tuesday (__init__ tuesday (fresh ∅ ∅)).2 = (Ok (), w2) →
          dump_local tuesday false w2
          = (Raise (AttributeError "_skip_local"), w2).
Proof.
  apply (dump_local_raises_attribute_error tuesday false (fresh ∅ ∅)).
  - reflexivity.
  - vm_compute. reflexivity.
Defined.

(** ** The method on the object *)

(** On an object that holds its counts, the method computes what
    [manage_files] computes and stores it in [self._drop_list]. *)
Lemma manage_files_on_self_ok e counts file_list drop_list w :
  self w !! "_backup_counts" = Some (PCounts counts) →
  manage_files (set_iter e) counts file_list = Ok drop_list →
  manage_files_on_self e file_list w
  = (Ok (), World (<["_drop_list" := PList drop_list]> (self w))
              (local_fs w) (remote_fs w) (client_open w) (sftp_open w)
              (trace w)).
Proof.
  intros Hc. unfold manage_files, manage_files_on_self.
  unfold mbind, M_bind, lift, set_attr, get_attr.
  destruct (unpack3 _) as [[[X Y] Z]|ex]; [simpl|done].
  rewrite lookup_insert_ne, Hc by done.
  intros ->. simpl. by rewrite insert_insert_eq.
Qed.

Lemma manage_files_on_self_raise e counts file_list ex w :
  self w !! "_backup_counts" = Some (PCounts counts) →
  manage_files (set_iter e) counts file_list = Raise ex →
  ∃ w', manage_files_on_self e file_list w = (Raise ex, w').
Proof.
  intros Hc. unfold manage_files, manage_files_on_self.
  unfold mbind, M_bind, lift, set_attr, get_attr.
  destruct (unpack3 _) as [[[X Y] Z]|ex']; simpl.
  - rewrite lookup_insert_ne, Hc by done. intros ->. simpl. eauto.
  - intros [= ->]. eauto.
Qed.

(** ** The remote session *)

Lemma bind_Ok {A B} (m : M A) (k : A → M B) w b w' :
  (m ≫= k) w = (Ok b, w') → ∃ a w1, m w = (Ok a, w1) ∧ k a w1 = (Ok b, w').
Proof.
  unfold mbind, M_bind. destruct (m w) as [[a|ex] w1]; [eauto|done].
Qed.

Lemma close_session_spec w :
  close_session w
  = (Ok (), World (self w) (local_fs w) (remote_fs w) false false
              (trace w ++ [ESftpClose; EClientClose])).
Proof.
  unfold close_session, mbind, M_bind, log, set_session. simpl.
  by rewrite <- app_assoc.
Qed.

(** C9, as the code has it.  When [dump_remote] does not skip the
    remote leg and returns, the SFTP channel and the SSH client are
    closed, and closing them is the last thing it did. *)
Theorem remote_session_closed_on_return e debug w w' skip_remote :
  self w !! "_skip_remote" = Some skip_remote →
  truthy skip_remote = false →
  dump_remote e debug w = (Ok (), w') →
  client_open w' = false ∧ sftp_open w' = false
  ∧ ∃ t, trace w' = t ++ [ESftpClose; EClientClose].
Proof.
  intros Hskip Hfalse H. unfold dump_remote in H.
  apply bind_Ok in H as (v & w1 & Hget & H).
  unfold get_attr in Hget. rewrite Hskip in Hget.
  injection Hget as <- <-. rewrite Hfalse in H.
  repeat match type of H with
         | mbind _ _ _ = _ => apply bind_Ok in H as (? & ? & _ & H)
         end.
  rewrite close_session_spec in H. injection H as <-. simpl. eauto.
Qed.

Lemma remote_session_closed_on_return_witness :
  client_open (dump_remote tuesday false (before_remote tuesday staged)).2
  = false
  ∧ sftp_open (dump_remote tuesday false (before_remote tuesday staged)).2
    = false
  ∧ ∃ t, trace (dump_remote tuesday false (before_remote tuesday staged)).2
         = t ++ [ESftpClose; EClientClose].
Proof.
  apply (remote_session_closed_on_return tuesday false
           (before_remote tuesday staged) _ (PBool false)).
  - vm_compute. reflexivity.
  - reflexivity.
  - vm_compute. reflexivity.
Defined.

(** C9, counterexample.  The transfer of the daily file fails: the
    exception leaves [dump_remote] with the channel and the client
    open, and neither is ever closed. *)
Lemma remote_session_left_open_on_failure :
  (dump_remote tuesday_offline false (before_remote tuesday_offline staged)).1
  = Raise (Exception "Unable to copy daily backup.")
  ∧ client_open
      (dump_remote tuesday_offline false
         (before_remote tuesday_offline staged)).2 = true
  ∧ sftp_open
      (dump_remote tuesday_offline false
         (before_remote tuesday_offline staged)).2 = true
  ∧ trace
      (dump_remote tuesday_offline false
         (before_remote tuesday_offline staged)).2
    = [EPopen "mysqldump -u'root' --all-databases"; EConnect; EOpenSftp;
       EPut "/backups/DAILY_all_2024-01-02.sql"
         "/remote/DAILY_all_2024-01-02.sql"].
Proof. repeat split; vm_compute; reflexivity. Qed.

(** ** Staging *)

(** C7.  The claim is that each backend gets the daily name always and
    the weekly and monthly names on their days only.  On a Tuesday, the
    second of a month: [main] stops in [dump_local] on the missing
    attribute and the local store gets no daily file; [dump_remote],
    which has none of the two tests of [dump_local], uploads whatever
    weekly and monthly files of the day lie in the local directory, and
    raises when there are none. *)
Theorem staging_on_a_tuesday :
  weekday (today tuesday) = 1%nat ∧ strftime_d (today tuesday) = "02"
  ∧ (main tuesday (fresh ∅ ∅)).1 = Raise (AttributeError "_skip_local")
  ∧ map_to_list (local_fs (main tuesday (fresh ∅ ∅)).2) = []
  ∧ self (before_remote tuesday staged) !! "_make_weekly"
    = Some (PBool false)
  ∧ self (before_remote tuesday staged) !! "_make_monthly"
    = Some (PBool false)
  ∧ (dump_remote tuesday false (before_remote tuesday staged)).1 = Ok ()
  ∧ remote_fs (dump_remote tuesday false (before_remote tuesday staged)).2
      !! "/remote/WEEKLY_all_2024-01-02.sql" = Some "-- stale"
  ∧ remote_fs (dump_remote tuesday false (before_remote tuesday staged)).2
      !! "/remote/MONTHLY_all_2024-01-02.sql" = Some "-- stale"
  ∧ (dump_remote tuesday false
       (before_remote tuesday
          {["/backups/DAILY_all_2024-01-02.sql" := "-- dump"]})).1
    = Raise (Exception "Unable to copy weekly backup.").
Proof. repeat split; vm_compute; reflexivity. Qed.

(** * Further properties *)

(** ** The loop of [prune] *)

(** [prune] with a count that is not negative splits the list where it
    stands: the front goes to the end of the drop list, in order, and
    what is kept is the rest, [n] names or the whole list when it is
    shorter. *)
Theorem prune_moves_front l n d :
  0 ≤ n →
  ∃ kept dropped,
    prune l n d = Ok (kept, d ++ dropped)
    ∧ l = dropped ++ kept
    ∧ length kept = Nat.min (length l) (Z.to_nat n).
Proof.
  intros Hn. rewrite prune_spec by done.
  eexists _, _. split; [done|]. split.
  - by rewrite take_drop.
  - rewrite length_drop. lia.
Qed.

Lemma prune_moves_front_witness :
  ∃ kept dropped,
    prune ["a"; "b"; "c"] 2 ["z"] = Ok (kept, ["z"] ++ dropped)
    ∧ ["a"; "b"; "c"] = dropped ++ kept
    ∧ length kept = Nat.min (length ["a"; "b"; "c"]) (Z.to_nat 2).
Proof. apply (prune_moves_front ["a"; "b"; "c"] 2 ["z"]). lia. Defined.

(** On a sorted bucket [prune] drops names that sort no later than any
    name it keeps, and dropped and kept names together are the bucket. *)
Theorem sorted_bucket_drops_smallest bucket n d kept d' :
  prune (Str.sort bucket) n d = Ok (kept, d') →
  ∃ dropped,
    d' = d ++ dropped
    ∧ dropped ++ kept ≡ₚ bucket
    ∧ ∀ f g, f ∈ dropped → g ∈ kept → str_le f g.
Proof.
  destruct (Z.lt_ge_cases n 0) as [Hneg|Hn].
  { by rewrite prune_negative. }
  rewrite prune_spec by lia. intros [= <- <-].
  eexists. split; [done|]. split.
  - by rewrite take_drop, StrFacts.sort_perm.
  - intros f g Hf Hg. rewrite StrFacts.sort_length in Hf, Hg.
    by eapply oldest_before_kept.
Qed.

Lemma sorted_bucket_drops_smallest_witness :
  ∃ dropped,
    ["DAILY_a_2024-01-01"] = [] ++ dropped
    ∧ dropped ++ ["DAILY_a_2024-01-02"; "DAILY_a_2024-01-03"]
      ≡ₚ ["DAILY_a_2024-01-03"; "DAILY_a_2024-01-01"; "DAILY_a_2024-01-02"]
    ∧ ∀ f g, f ∈ dropped →
             g ∈ ["DAILY_a_2024-01-02"; "DAILY_a_2024-01-03"] → str_le f g.
Proof.
  apply (sorted_bucket_drops_smallest
           ["DAILY_a_2024-01-03"; "DAILY_a_2024-01-01"; "DAILY_a_2024-01-02"]
           2 []).
  vm_compute. reflexivity.
Defined.

(** ** Counts *)

Lemma manage_group_negative counts X Y Z d y :
  ¬ counts_nonneg counts →
  manage_group counts X Y Z d y = Raise (IndexError "pop from empty list").
Proof.
  intros Hneg. unfold manage_group.
  destruct (Z.lt_ge_cases (DLY_BACKUP_COUNT counts) 0) as [?|Hd].
  { by rewrite prune_negative. }
  rewrite prune_spec by lia. simpl.
  destruct (Z.lt_ge_cases (WLY_BACKUP_COUNT counts) 0) as [?|Hw].
  { by rewrite prune_negative. }
  rewrite prune_spec by lia. simpl.
  destruct (Z.lt_ge_cases (MLY_BACKUP_COUNT counts) 0) as [?|Hm].
  { by rewrite prune_negative. }
  destruct Hneg. unfold counts_nonneg. lia.
Qed.

(** A negative count is not rejected: as soon as the names unpack and
    there is a group to visit, [manage_files] ends on the [IndexError] of
    [pop(0)] on an emptied list. *)
Theorem negative_count_raises set_iter counts file_list X Y Z :
  unpack3 (zip_star (Str.split "_" <$> file_list)) = Ok (X, Y, Z) →
  set_iter Y ≠ [] →
  ¬ counts_nonneg counts →
  manage_files set_iter counts file_list
  = Raise (IndexError "pop from empty list").
Proof.
  intros HU Hne Hneg. unfold manage_files. rewrite HU. simpl.
  destruct (set_iter Y) as [|y ys]; [done|]. simpl.
  by rewrite manage_group_negative.
Qed.

Lemma negative_count_raises_witness :
  manage_files remove_dups (BackupCounts 5 (-1) 5) ["DAILY_a_2024-01-01"]
  = Raise (IndexError "pop from empty list").
Proof.
  apply (negative_count_raises remove_dups (BackupCounts 5 (-1) 5)
           ["DAILY_a_2024-01-01"] ["DAILY"] ["a"] ["2024-01-01"]).
  - reflexivity.
  - vm_compute. discriminate.
  - unfold counts_nonneg. simpl. lia.
Defined.

Lemma manage_files_three_fields_witness :
  manage_files remove_dups (BackupCounts 1 1 1)
    ["DAILY_a_2024-01-01"; "DAILY_a_2024-01-02"]
  = Ok (concat ((λ y, emitted (BackupCounts 1 1 1)
                        (filter (λ f, group_of f = Some y)
                           ["DAILY_a_2024-01-01"; "DAILY_a_2024-01-02"]))
                  <$> remove_dups
                        (column_Y ["DAILY_a_2024-01-01";
                                   "DAILY_a_2024-01-02"]))).
Proof.
  apply (manage_files_three_fields remove_dups (BackupCounts 1 1 1)).
  - unfold counts_nonneg. simpl. lia.
  - discriminate.
  - unfold three_fields. repeat constructor.
Defined.

Section AfterPruning.

Context (set_iter : list string → list string) (counts : backup_counts).
Context (file_list drop_list : list string).
Hypothesis Hcounts : counts_nonneg counts.
Hypothesis Hthree : three_fields file_list.
Hypothesis Hiter : set_iter_on set_iter (column_Y file_list).
Hypothesis Hrun : manage_files set_iter counts file_list = Ok drop_list.

(** What is left of a bucket once the dropped names are gone. *)
Lemma bucket_left token n y :
  (∀ f, f ∈ oldest n (having token
                        (filter (λ g, group_of g = Some y) file_list))
        → f ∈ drop_list) →
  (length (having token
             (filter (λ g, group_of g = Some y)
                (without drop_list file_list))) ≤ Z.to_nat n)%nat.
Proof using Type.
  intros Hcov. unfold without, having.
  rewrite (filter_comm _ (λ f, f ∉ drop_list)).
  rewrite (filter_comm _ (λ f, f ∉ drop_list)).
  by apply bucket_after_removal.
Qed.

Lemma emitted_daily l f :
  f ∈ oldest (DLY_BACKUP_COUNT counts) (having "DAILY" l) →
  f ∈ emitted counts l.
Proof using Type. unfold emitted. rewrite !elem_of_app. auto. Qed.

Lemma emitted_weekly l f :
  f ∈ oldest (WLY_BACKUP_COUNT counts) (having "WEEKLY" l) →
  f ∈ emitted counts l.
Proof using Type. unfold emitted. rewrite !elem_of_app. auto. Qed.

Lemma emitted_monthly l f :
  f ∈ oldest (MLY_BACKUP_COUNT counts) (having "MONTHLY" l) →
  f ∈ emitted counts l.
Proof using Type. unfold emitted. rewrite !elem_of_app. auto. Qed.

End AfterPruning.

(** Once the names of the drop list are deleted, every group is within
    its counts: at most the daily count of names that hold DAILY, and
    the same for WEEKLY and MONTHLY. *)
Theorem buckets_within_counts set_iter counts file_list drop_list y :
  counts_nonneg counts → three_fields file_list →
  set_iter_on set_iter (column_Y file_list) →
  manage_files set_iter counts file_list = Ok drop_list →
  let left := filter (λ g, group_of g = Some y)
                (without drop_list file_list) in
  (length (having "DAILY" left) ≤ Z.to_nat (DLY_BACKUP_COUNT counts)
   ∧ length (having "WEEKLY" left) ≤ Z.to_nat (WLY_BACKUP_COUNT counts)
   ∧ length (having "MONTHLY" left) ≤ Z.to_nat (MLY_BACKUP_COUNT counts))%nat.
Proof.
  intros Hc H3 Hiter Hrun. simpl.
  pose proof (first_run_covers set_iter counts file_list drop_list
                Hc H3 Hiter Hrun y) as Hcov.
  repeat split; apply bucket_left; intros f Hf; apply Hcov.
  - by apply emitted_daily.
  - by apply emitted_weekly.
  - by apply emitted_monthly.
Qed.

Lemma buckets_within_counts_witness :
  let left := filter (λ g, group_of g = Some "orders")
                (without ["DAILY_orders_2024-01-01"]
                   ["DAILY_orders_2024-01-01"; "DAILY_orders_2024-01-02";
                    "DAILY_orders_2024-01-03"]) in
  (length (having "DAILY" left) ≤ Z.to_nat (DLY_BACKUP_COUNT (BackupCounts 2 1 1))
   ∧ length (having "WEEKLY" left)
     ≤ Z.to_nat (WLY_BACKUP_COUNT (BackupCounts 2 1 1))
   ∧ length (having "MONTHLY" left)
     ≤ Z.to_nat (MLY_BACKUP_COUNT (BackupCounts 2 1 1)))%nat.
Proof.
  apply (buckets_within_counts remove_dups (BackupCounts 2 1 1)
           ["DAILY_orders_2024-01-01"; "DAILY_orders_2024-01-02";
            "DAILY_orders_2024-01-03"]).
  - unfold counts_nonneg. simpl. lia.
  - unfold three_fields. repeat constructor.
  - unfold set_iter_on. apply (bool_decide_unpack _). vm_compute. exact I.
  - vm_compute. reflexivity.
Defined.

Lemma oldest_zero bucket f : f ∈ bucket → f ∈ oldest 0 bucket.
Proof.
  intros Hf. unfold oldest. rewrite take_ge.
  - by rewrite StrFacts.sort_perm.
  - rewrite StrFacts.sort_length. simpl. lia.
Qed.

(** A count of zero keeps nothing: every name of the listing that holds
    the token of a tier whose count is zero is in the drop list. *)
Theorem zero_count_drops_every_name set_iter counts file_list drop_list f :
  counts_nonneg counts → three_fields file_list →
  set_iter_on set_iter (column_Y file_list) →
  manage_files set_iter counts file_list = Ok drop_list →
  f ∈ file_list →
  (DLY_BACKUP_COUNT counts = 0 ∧ Str.contains "DAILY" f = true)
  ∨ (WLY_BACKUP_COUNT counts = 0 ∧ Str.contains "WEEKLY" f = true)
  ∨ (MLY_BACKUP_COUNT counts = 0 ∧ Str.contains "MONTHLY" f = true) →
  f ∈ drop_list.
Proof.
  intros Hc H3 Hiter Hrun Hf Hzero.
  assert (file_list ≠ []) as Hne by (intros ->; by apply elem_of_nil in Hf).
  destruct (unpack_three file_list Hne H3) as (X & Y & Z & _ & _ & HY).
  destruct (HY f Hf) as (y & _ & Hg).
  apply (first_run_covers set_iter counts file_list drop_list
           Hc H3 Hiter Hrun y).
  assert (∀ token, Str.contains token f = true →
            f ∈ having token (filter (λ g, group_of g = Some y) file_list))
    as Hin.
  { intros token Htok. unfold having. apply list_elem_of_filter. split.
    - by apply Is_true_true.
    - by apply list_elem_of_filter. }
  destruct Hzero as [[Hz Ht]|[[Hz Ht]|[Hz Ht]]].
  - apply emitted_daily. rewrite Hz. by apply oldest_zero, Hin.
  - apply emitted_weekly. rewrite Hz. by apply oldest_zero, Hin.
  - apply emitted_monthly. rewrite Hz. by apply oldest_zero, Hin.
Qed.

Lemma zero_count_drops_every_name_witness :
  "DAILY_x_2024-01-01" ∈ ["DAILY_x_2024-01-01"].
Proof.
  apply (zero_count_drops_every_name remove_dups (BackupCounts 0 1 1)
           ["DAILY_x_2024-01-01"] ["DAILY_x_2024-01-01"]).
  - unfold counts_nonneg. simpl. lia.
  - unfold three_fields. repeat constructor.
  - unfold set_iter_on. apply (bool_decide_unpack _). vm_compute. exact I.
  - vm_compute. reflexivity.
  - left.
  - left. split; reflexivity.
Defined.

(** ** The unpacking of the names *)

Section Unpacking.

(** [zip] stops at the shortest row. *)
Lemma zip_star_length_le rows r :
  r ∈ rows → (length (zip_star rows) ≤ length r)%nat.
Proof.
  induction rows as [|r0 rows IH]; [by intros ?%elem_of_nil|].
  intros Hr. simpl. destruct rows as [|r1 rows].
  - apply list_elem_of_singleton in Hr as ->. by rewrite length_fmap.
  - rewrite length_zip_with.
    apply elem_of_cons in Hr as [->|Hr]; [lia|].
    specialize (IH Hr). lia.
Qed.

Lemma zip_star_length_ge rows k :
  rows ≠ [] → Forall (λ r : list string, (k ≤ length r)%nat) rows →
  (k ≤ length (zip_star rows))%nat.
Proof.
  induction rows as [|r0 rows IH]; [done|]. intros _ Hall.
  inversion_clear Hall as [|?? Hr0 Hrows]. simpl.
  destruct rows as [|r1 rows].
  - by rewrite length_fmap.
  - rewrite length_zip_with. specialize (IH ltac:(done) Hrows). lia.
Qed.

Lemma unpack3_short {A} (l : list A) :
  (length l < 3)%nat →
  unpack3 l = Raise (ValueError "not enough values to unpack").
Proof. destruct l as [|a [|b [|c l]]]; simpl; [done..|lia]. Qed.

Lemma unpack3_long {A} (l : list A) :
  (3 < length l)%nat →
  unpack3 l = Raise (ValueError "too many values to unpack (expected 3)").
Proof. destruct l as [|a [|b [|c [|e l]]]]; simpl; (done || lia). Qed.

Lemma unpack3_exact {A} (l : list A) :
  length l = 3%nat → ∃ x y z, unpack3 l = Ok (x, y, z).
Proof. destruct l as [|a [|b [|c [|e l]]]]; simpl; try done. eauto. Qed.

(** The first three columns read the first three fields of every row. *)
Lemma zip_star_first_three rows X Y Z rest :
  zip_star rows = X :: Y :: Z :: rest →
  to_row <$> zip3 X Y Z = take 3 <$> rows.
Proof.
  revert X Y Z rest. induction rows as [|r rows IH]; intros X Y Z rest.
  { done. }
  simpl. destruct rows as [|r1 rows].
  - destruct r as [|a [|b [|c r]]]; try done. by intros [= <- <- <- _].
  - destruct r as [|a [|b [|c r]]];
      destruct (zip_star (r1 :: rows)) as [|X' [|Y' [|Z' rest']]] eqn:E;
      try done.
    intros [= <- <- <- _].
    change (zip3 (a :: X') (b :: Y') (c :: Z'))
      with ((a, b, c) :: zip3 X' Y' Z').
    rewrite !fmap_cons. f_equal. by eapply IH.
Qed.

End Unpacking.

(** One name with fewer than three fields stops the whole computation:
    [manage_files] raises [ValueError] whatever the other names and the
    counts are. *)
Theorem short_name_aborts set_iter counts file_list f :
  f ∈ file_list → (length (Str.split "_" f) < 3)%nat →
  manage_files set_iter counts file_list
  = Raise (ValueError "not enough values to unpack").
Proof.
  intros Hf Hlen. unfold manage_files. rewrite unpack3_short; [done|].
  eapply Nat.le_lt_trans; [|exact Hlen].
  apply zip_star_length_le, list_elem_of_fmap. eauto.
Qed.

Lemma short_name_aborts_witness :
  manage_files remove_dups (BackupCounts 5 5 5)
    ["DAILY_orders_2024-01-01.sql"; "lost+found"]
  = Raise (ValueError "not enough values to unpack").
Proof.
  apply (short_name_aborts remove_dups (BackupCounts 5 5 5) _ "lost+found").
  - right. left.
  - vm_compute. lia.
Defined.

(** When every name of a listing that is not empty has more than three
    fields, [manage_files] raises [ValueError] too. *)
Theorem long_names_abort set_iter counts file_list :
  file_list ≠ [] →
  Forall (λ f, (3 < length (Str.split "_" f))%nat) file_list →
  manage_files set_iter counts file_list
  = Raise (ValueError "too many values to unpack (expected 3)").
Proof.
  intros Hne Hall. unfold manage_files. rewrite unpack3_long; [done|].
  apply (zip_star_length_ge _ 4).
  - by destruct file_list.
  - by rewrite Forall_fmap.
Qed.

Lemma long_names_abort_witness :
  manage_files remove_dups (BackupCounts 5 5 5)
    ["DAILY_my_db_2024-01-01.sql"; "DAILY_my_db_2024-01-02.sql"]
  = Raise (ValueError "too many values to unpack (expected 3)").
Proof.
  apply long_names_abort.
  - discriminate.
  - repeat constructor.
Defined.

(** The unpacking succeeds exactly when the listing is not empty, every
    name has at least three fields and some name has exactly three. *)
Theorem unpacking_succeeds_iff file_list :
  (∃ XYZ, unpack3 (zip_star (Str.split "_" <$> file_list)) = Ok XYZ)
  ↔ file_list ≠ []
    ∧ Forall (λ f, (3 ≤ length (Str.split "_" f))%nat) file_list
    ∧ Exists (λ f, length (Str.split "_" f) = 3%nat) file_list.
Proof.
  split.
  - intros ([[X Y] Z] & HU). apply unpack3_inv in HU.
    assert (length (zip_star (Str.split "_" <$> file_list)) = 3%nat) as Hlen
      by by rewrite HU.
    split; [by intros ->|]. split.
    + apply Forall_forall. intros f Hf. rewrite <- Hlen.
      apply zip_star_length_le, list_elem_of_fmap. eauto.
    + destruct (decide (Exists (λ f, length (Str.split "_" f) = 3%nat)
                          file_list)) as [|Hno]; [done|].
      apply not_Exists_Forall in Hno; [|apply _].
      assert (4 ≤ length (zip_star (Str.split "_" <$> file_list)))%nat;
        [|lia].
      apply zip_star_length_ge; [by destruct file_list; [rewrite HU in *|]|].
      rewrite Forall_fmap. apply Forall_forall. intros f Hf. simpl.
      rewrite Forall_forall in Hno. specialize (Hno f Hf). simpl in Hno.
      assert (3 ≤ length (Str.split "_" f))%nat; [|lia].
      rewrite <- Hlen. apply zip_star_length_le, list_elem_of_fmap. eauto.
  - intros (Hne & Hall & Hex).
    destruct (unpack3_exact (zip_star (Str.split "_" <$> file_list)))
      as (X & Y & Z & HU); [|eauto].
    apply Nat.le_antisymm.
    + apply Exists_exists in Hex as (f & Hf & <-).
      apply zip_star_length_le, list_elem_of_fmap. eauto.
    + apply zip_star_length_ge; [by destruct file_list|].
      by rewrite Forall_fmap.
Qed.

Lemma foldR_manage_group_appends counts X Y Z ys d d' :
  foldR (manage_group counts X Y Z) d ys = Ok d' →
  ∃ e, d' = d ++ e ∧ ∀ f, f ∈ e → ∃ y, f ∈ rebuilt X Y Z y.
Proof.
  revert d. induction ys as [|y ys IH]; intros d; simpl.
  - intros [= <-]. exists []. rewrite app_nil_r.
    split; [done|]. by intros f ?%elem_of_nil.
  - destruct (manage_group counts X Y Z d y) as [d1|] eqn:E; [simpl|done].
    apply manage_group_appends in E as (e1 & -> & H1).
    intros (e2 & -> & H2)%IH. exists (e1 ++ e2).
    rewrite <- app_assoc. split; [done|].
    intros f [?|?]%elem_of_app; eauto.
Qed.

(** Only the first three fields of a name are looked at: every name of
    the drop list is the first three fields of some name of the listing,
    joined again.  With more fields than three, the drop list names a
    file that the listing does not have. *)
Theorem drop_list_of_truncated_names set_iter counts file_list drop_list f :
  manage_files set_iter counts file_list = Ok drop_list →
  f ∈ drop_list →
  ∃ g, g ∈ file_list ∧ f = Str.join "_" (take 3 (Str.split "_" g)).
Proof.
  unfold manage_files.
  destruct (unpack3 _) as [[[X Y] Z]|] eqn:HU; [simpl|done].
  intros (e & -> & He)%foldR_manage_group_appends Hf.
  rewrite app_nil_l in Hf. destruct (He f Hf) as (y & Hy).
  unfold rebuilt in Hy.
  apply list_elem_of_fmap in Hy as (t & -> & [_ Ht]%list_elem_of_filter).
  apply unpack3_inv in HU.
  pose proof (zip_star_first_three _ _ _ _ _ HU) as Hrows.
  assert (to_row t ∈ take 3 <$> (Str.split "_" <$> file_list)) as Hin.
  { rewrite <- Hrows. apply list_elem_of_fmap. eauto. }
  apply list_elem_of_fmap in Hin as (r & Hr & Hin).
  apply list_elem_of_fmap in Hin as (g & -> & Hg).
  exists g. split; [done|]. by rewrite <- Hr.
Qed.

Lemma drop_list_of_truncated_names_witness :
  ∃ g, g ∈ ["DAILY_my_db_2024-01-01.sql"; "DAILY_my_db_2024-01-02.sql";
            "DAILY_other_2024-01-01.sql"]
       ∧ "DAILY_my_db" = Str.join "_" (take 3 (Str.split "_" g)).
Proof.
  apply (drop_list_of_truncated_names remove_dups (BackupCounts 1 1 1)
           _ ["DAILY_my_db"]).
  - vm_compute. reflexivity.
  - left.
Defined.

(** ** The order of the listing and of the groups *)

#[global] Instance str_le_trans_inst : Transitive str_le.
Proof. intros a b c. apply StrFacts.str_le_trans. Qed.

#[global] Instance str_le_antisym : AntiSymm (=) str_le.
Proof. intros a b. apply String.leb_antisym. Qed.

(** Sorting forgets the order it was given. *)
Lemma sort_unique l l' : l ≡ₚ l' → Str.sort l = Str.sort l'.
Proof.
  intros Hp. apply (StronglySorted_unique str_le).
  - apply StrFacts.sort_sorted.
  - apply StrFacts.sort_sorted.
  - by rewrite !StrFacts.sort_perm.
Qed.

Lemma oldest_perm n l l' : l ≡ₚ l' → oldest n l = oldest n l'.
Proof.
  intros Hp. unfold oldest. by rewrite (sort_unique l l' Hp), Hp.
Qed.

Lemma having_perm token l l' : l ≡ₚ l' → having token l ≡ₚ having token l'.
Proof. intros Hp. unfold having. by rewrite Hp. Qed.

Lemma emitted_perm counts l l' : l ≡ₚ l' → emitted counts l = emitted counts l'.
Proof.
  intros Hp. unfold emitted.
  by rewrite (oldest_perm _ _ _ (having_perm "DAILY" l l' Hp)),
    (oldest_perm _ _ _ (having_perm "WEEKLY" l l' Hp)),
    (oldest_perm _ _ _ (having_perm "MONTHLY" l l' Hp)).
Qed.

Lemma concat_perm (l k : list (list string)) :
  l ≡ₚ k → concat l ≡ₚ concat k.
Proof.
  induction 1 as [|x l k _ IH|x y l|l k m _ IH1 _ IH2]; simpl.
  - done.
  - by rewrite IH.
  - rewrite !app_assoc. f_equiv. apply Permutation_app_comm.
  - by etrans.
Qed.

Lemma zip_star_column_length rows :
  Forall (λ col : list string, length col = length rows) (zip_star rows).
Proof.
  induction rows as [|r rows IH]; [constructor|].
  simpl. destruct rows as [|r1 rows].
  - apply Forall_fmap, Forall_forall. by intros x _.
  - apply Forall_forall.
    intros col (a & c & -> & _ & Hc)%elem_of_zip_with.
    rewrite Forall_forall in IH. simpl. by rewrite (IH c Hc).
Qed.

Lemma zip3_middle X Y Z :
  length X = length Y → length Z = length Y →
  (λ t : string * string * string, t.1.2) <$> zip3 X Y Z = Y.
Proof.
  revert X Z. induction Y as [|y Y IH]; intros [|x X] [|z Z]; try done.
  intros [= HX] [= HZ].
  change (zip3 (x :: X) (y :: Y) (z :: Z)) with ((x, y, z) :: zip3 X Y Z).
  rewrite fmap_cons. simpl. f_equal. by apply IH.
Qed.

(** [Y] holds the second field of every name, and nothing else. *)
Lemma column_Y_elem file_list X Y Z y :
  unpack3 (zip_star (Str.split "_" <$> file_list)) = Ok (X, Y, Z) →
  y ∈ Y ↔ ∃ f, f ∈ file_list ∧ group_of f = Some y.
Proof.
  intros HU%unpack3_inv.
  pose proof (zip_star_first_three _ _ _ _ _ HU) as Hrows.
  pose proof (zip_star_column_length (Str.split "_" <$> file_list)) as Hlen.
  rewrite HU in Hlen.
  apply Forall_cons in Hlen as [HX Hlen].
  apply Forall_cons in Hlen as [HY Hlen].
  apply Forall_cons in Hlen as [HZ _].
  assert (∀ t f, to_row t = take 3 (Str.split "_" f) →
                 group_of f = Some t.1.2) as Hgroup.
  { intros t f Ht. unfold group_of.
    rewrite <- (lookup_take_lt _ 3 1) by lia. by rewrite <- Ht. }
  split.
  - intros Hy. rewrite <- (zip3_middle X Y Z) in Hy by congruence.
    apply list_elem_of_fmap in Hy as (t & -> & Ht).
    assert (to_row t ∈ take 3 <$> (Str.split "_" <$> file_list)) as Hin.
    { rewrite <- Hrows. apply list_elem_of_fmap. eauto. }
    apply list_elem_of_fmap in Hin as (r & Hr & Hin).
    apply list_elem_of_fmap in Hin as (f & -> & Hf). eauto.
  - intros (f & Hf & Hg).
    assert (take 3 (Str.split "_" f) ∈ to_row <$> zip3 X Y Z) as Hin.
    { rewrite Hrows. apply list_elem_of_fmap. eexists. split; [done|].
      apply list_elem_of_fmap. eauto. }
    apply list_elem_of_fmap in Hin as ([[x1 y'] x3] & Ht & Hin).
    rewrite (Hgroup (x1, y', x3) f) in Hg by done.
    injection Hg as <-. by destruct (zip3_elem _ _ _ _ _ _ Hin) as (_ & ? & _).
Qed.

(** The drop list does not depend on the order in which the directory
    is listed, nor on the order in which the groups are visited, but for
    its own order. *)
Theorem listing_order_irrelevant si si' counts file_list file_list'
    drop_list drop_list' :
  counts_nonneg counts → three_fields file_list →
  file_list ≡ₚ file_list' →
  set_iter_on si (column_Y file_list) →
  set_iter_on si' (column_Y file_list') →
  manage_files si counts file_list = Ok drop_list →
  manage_files si' counts file_list' = Ok drop_list' →
  drop_list ≡ₚ drop_list'.
Proof.
  intros Hc H3 Hp Hsi Hsi' Hrun Hrun'.
  assert (file_list ≠ []) as Hne by (by intros ->).
  assert (file_list' ≠ []) as Hne' by (by intros ->).
  assert (three_fields file_list') as H3'.
  { unfold three_fields. by rewrite <- Hp. }
  rewrite manage_files_three_fields in Hrun by done.
  rewrite manage_files_three_fields in Hrun' by done.
  injection Hrun as <-. injection Hrun' as <-.
  apply concat_perm.
  assert (si (column_Y file_list) ≡ₚ si' (column_Y file_list')) as Hgroups.
  { destruct Hsi as (Hnd & Hin & Hall), Hsi' as (Hnd' & Hin' & Hall').
    rewrite Forall_forall in Hin, Hall, Hin', Hall'.
    destruct (unpack_three file_list Hne H3) as (X & Y & Z & HU & _).
    destruct (unpack_three file_list' Hne' H3') as (X' & Y' & Z' & HU' & _).
    assert (column_Y file_list = Y) as HY by (unfold column_Y; by rewrite HU).
    assert (column_Y file_list' = Y') as HY'
      by (unfold column_Y; by rewrite HU').
    rewrite HY in *. rewrite HY' in *.
    apply NoDup_Permutation; [done..|]. intros y.
    assert (y ∈ Y ↔ y ∈ Y') as HYY.
    { rewrite (column_Y_elem _ _ _ _ y HU), (column_Y_elem _ _ _ _ y HU').
      by setoid_rewrite Hp. }
    split; intros Hy.
    - apply Hall', HYY, Hin, Hy.
    - apply Hall, HYY, Hin', Hy. }
  rewrite Hgroups. apply reflexive_eq, list_fmap_ext. intros _ y _.
  apply emitted_perm. by rewrite Hp.
Qed.

Lemma listing_order_irrelevant_witness :
  ["DAILY_a_2024-01-01"; "DAILY_b_2024-01-01"]
  ≡ₚ ["DAILY_b_2024-01-01"; "DAILY_a_2024-01-01"].
Proof.
  apply (listing_order_irrelevant remove_dups remove_dups (BackupCounts 1 1 1)
           ["DAILY_a_2024-01-01"; "DAILY_a_2024-01-02"; "DAILY_b_2024-01-01";
            "DAILY_b_2024-01-02"]
           ["DAILY_a_2024-01-01"; "DAILY_b_2024-01-01"; "DAILY_b_2024-01-02";
            "DAILY_a_2024-01-02"]).
  - unfold counts_nonneg. simpl. lia.
  - unfold three_fields. repeat constructor.
  - apply perm_skip, (Permutation_cons_append [_; _]).
  - unfold set_iter_on. apply (bool_decide_unpack _). vm_compute. exact I.
  - unfold set_iter_on. apply (bool_decide_unpack _). vm_compute. exact I.
  - vm_compute. reflexivity.
  - vm_compute. reflexivity.
Defined.

(** The group key, and with it the file name, does not depend on the
    order in which [DATABASES] lists the databases. *)
Theorem group_key_order_irrelevant databases databases' today :
  Str.split " " databases ≡ₚ Str.split " " databases' →
  group_key databases = group_key databases'
  ∧ filename databases today = filename databases' today.
Proof.
  intros Hp. unfold filename, group_key. by rewrite (sort_unique _ _ Hp).
Qed.

Lemma group_key_order_irrelevant_witness :
  group_key "shop crm" = group_key "crm shop"
  ∧ filename "shop crm" (Date 2024 1 7) = filename "crm shop" (Date 2024 1 7).
Proof.
  apply (group_key_order_irrelevant "shop crm" "crm shop").
  apply perm_swap.
Defined.

(** ** Names and dates *)

Section Chronology.

Lemma compare_refl s : String.compare s s = Eq.
Proof.
  induction s as [|c s IH]; simpl; [done|].
  unfold Ascii.compare. by rewrite N.compare_refl.
Qed.

Lemma compare_app_prefix p a b :
  String.compare (p +:+ a) (p +:+ b) = String.compare a b.
Proof.
  induction p as [|c p IH]; [done|].
  change (String c p +:+ a) with (String c (p +:+ a)).
  change (String c p +:+ b) with (String c (p +:+ b)).
  simpl. unfold Ascii.compare. by rewrite N.compare_refl.
Qed.

Lemma compare_cons c1 s1 c2 s2 :
  String.compare (String c1 s1) (String c2 s2)
  = match Ascii.compare c1 c2 with
    | Eq => String.compare s1 s2
    | Lt => Lt
    | Gt => Gt
    end.
Proof. reflexivity. Qed.

Lemma digit_mod a b : (a mod 10 = b mod 10)%nat → digit a = digit b.
Proof. unfold digit. by intros ->. Qed.

Lemma digit_compare a b :
  Ascii.compare (digit a) (digit b) = Nat.compare (a mod 10) (b mod 10).
Proof.
  unfold digit.
  pose proof (Nat.mod_upper_bound a 10 ltac:(done)) as Ha.
  pose proof (Nat.mod_upper_bound b 10 ltac:(done)) as Hb.
  destruct (a mod 10)%nat as [|[|[|[|[|[|[|[|[|[|?]]]]]]]]]]; try lia;
    destruct (b mod 10)%nat as [|[|[|[|[|[|[|[|[|[|?]]]]]]]]]]; try lia;
    reflexivity.
Qed.

(** Two digits, then the rest. *)
Lemma two_digits_compare a b s1 s2 :
  (a < 100)%nat → (b < 100)%nat →
  String.compare (String (digit (a / 10)) (String (digit a) s1))
                 (String (digit (b / 10)) (String (digit b) s2))
  = match Nat.compare a b with
    | Eq => String.compare s1 s2
    | c => c
    end.
Proof.
  intros Ha Hb. rewrite !compare_cons, !digit_compare.
  pose proof (Nat.div_mod_eq a 10). pose proof (Nat.div_mod_eq b 10).
  pose proof (Nat.mod_upper_bound a 10 ltac:(done)).
  pose proof (Nat.mod_upper_bound b 10 ltac:(done)).
  rewrite (Nat.mod_small (a / 10) 10), (Nat.mod_small (b / 10) 10) by lia.
  destruct (Nat.compare_spec (a / 10) (b / 10));
    destruct (Nat.compare_spec (a mod 10) (b mod 10));
    destruct (Nat.compare_spec a b); try done; lia.
Qed.

(** Four digits, then the rest. *)
Lemma four_digits_compare a b s1 s2 :
  Z.of_nat a ≤ 9999 → Z.of_nat b ≤ 9999 →
  String.compare
    (String (digit (a / 1000)) (String (digit (a / 100))
       (String (digit (a / 10)) (String (digit a) s1))))
    (String (digit (b / 1000)) (String (digit (b / 100))
       (String (digit (b / 10)) (String (digit b) s2))))
  = match Nat.compare a b with
    | Eq => String.compare s1 s2
    | c => c
    end.
Proof.
  intros Ha Hb.
  pose proof (Nat.div_mod_eq a 100). pose proof (Nat.div_mod_eq b 100).
  pose proof (Nat.mod_upper_bound a 100 ltac:(done)).
  pose proof (Nat.mod_upper_bound b 100 ltac:(done)).
  assert (∀ n, digit (n / 1000) = digit (n / 100 / 10)) as Hthousands.
  { intros n. by rewrite Nat.Div0.div_div. }
  assert (∀ n, digit (n / 10) = digit (n mod 100 / 10)) as Htens.
  { intros n. apply digit_mod.
    rewrite (Nat.div_mod_eq n 100) at 1.
    change 100%nat with (10 * 10)%nat at 1.
    rewrite <- Nat.mul_assoc, Nat.mul_comm, Nat.div_add_l by done.
    rewrite Nat.add_comm, Nat.mul_comm, Nat.Div0.mod_add. done. }
  assert (∀ n, digit n = digit (n mod 100)) as Hunits.
  { intros n. apply digit_mod.
    change 100%nat with (10 * 10)%nat. by rewrite Nat.Div0.mod_mul_r,
      Nat.mul_comm, Nat.Div0.mod_add, Nat.Div0.mod_mod. }
  rewrite (Hthousands a), (Hthousands b), (Htens a), (Htens b), (Hunits a), (Hunits b).
  rewrite two_digits_compare by lia.
  rewrite two_digits_compare by lia.
  destruct (Nat.compare_spec (a / 100) (b / 100));
    destruct (Nat.compare_spec (a mod 100) (b mod 100));
    destruct (Nat.compare_spec a b); try done; lia.
Qed.

Lemma strftime_Ymd_compare d1 d2 :
  valid_date d1 → valid_date d2 →
  (1000 ≤ year d1)%nat → (1000 ≤ year d2)%nat →
  String.compare (strftime_Ymd d1 +:+ ".sql") (strftime_Ymd d2 +:+ ".sql")
  = date_compare d1 d2.
Proof.
  intros (Hy1 & Hm1 & Hd1) (Hy2 & Hm2 & Hd2) Hfour1 Hfour2.
  pose proof (days_in_month_bound (year d1) (month d1)).
  pose proof (days_in_month_bound (year d2) (month d2)).
  rewrite !strftime_Ymd_sql, !strftime_Y_four by done.
  cbv [append pad4 pad2].
  rewrite four_digits_compare by lia.
  unfold date_compare. destruct (Nat.compare (year d1) (year d2)); try done.
  change (String.compare (String "-" ?a) (String "-" ?b))
    with (String.compare a b).
  rewrite two_digits_compare by lia.
  destruct (Nat.compare (month d1) (month d2)); try done.
  change (String.compare (String "-" ?a) (String "-" ?b))
    with (String.compare a b).
  rewrite two_digits_compare by lia.
  destruct (Nat.compare (day d1) (day d2)); done.
Qed.

End Chronology.

(** The year is not padded, so the names of the years before 1000 sort
    after those of later years. *)
Example year_999_sorts_last :
  filename "shop" (Date 999 12 31) = "shop_999-12-31.sql"
  ∧ String.compare (tier_name DAILY (filename "shop" (Date 999 12 31)))
                   (tier_name DAILY (filename "shop" (Date 1000 1 1)))
    = Gt.
Proof. split; vm_compute; reflexivity. Qed.

(** Sorting the names sorts the dates from the year 1000 on, where the
    year has its four digits: two names of the same tier and the same
    databases compare as their dates do, so [sort()] puts the names of
    a bucket from old to new. *)
Theorem names_sort_by_date t databases d1 d2 :
  valid_date d1 → valid_date d2 →
  (1000 ≤ year d1)%nat → (1000 ≤ year d2)%nat →
  String.compare (tier_name t (filename databases d1))
                 (tier_name t (filename databases d2))
  = date_compare d1 d2.
Proof.
  intros H1 H2 Hy1 Hy2. unfold tier_name, filename.
  rewrite !compare_app_prefix. by apply strftime_Ymd_compare.
Qed.

Lemma names_sort_by_date_witness :
  String.compare (tier_name DAILY (filename "shop" (Date 2023 12 31)))
                 (tier_name DAILY (filename "shop" (Date 2024 1 2)))
  = date_compare (Date 2023 12 31) (Date 2024 1 2).
Proof.
  apply names_sort_by_date; unfold valid_date; simpl; lia.
Defined.

(** ** Configuration *)

Section Scraping.

Context (e : env).

Lemma scrape_one_set_attr kv :
  scrape_one e kv = set_attr (attr_of kv.1) (resolved e kv.1 kv.2).
Proof.
  unfold scrape_one, resolved, attr_of.
  by destruct (checkcli (cli_args e) (lower kv.1)), (getenv e kv.1).
Qed.

(** The loop only assigns attributes. *)
Lemma for_each_scrape l w :
  for_each l (scrape_one e) w
  = (Ok (),
     World (foldl (λ m kv, <[attr_of kv.1 := resolved e kv.1 kv.2]> m)
              (self w) l)
       (local_fs w) (remote_fs w) (client_open w) (sftp_open w) (trace w)).
Proof.
  revert w. induction l as [|kv l IH]; intros w.
  - by destruct w.
  - simpl. unfold mbind, M_bind. rewrite scrape_one_set_attr.
    unfold set_attr at 1. by rewrite IH.
Qed.

Lemma foldl_insert_other (l : list (string * pyval)) (m : gmap string pyval)
    name :
  name ∉ (λ kv, attr_of kv.1) <$> l →
  foldl (λ m kv, <[attr_of kv.1 := resolved e kv.1 kv.2]> m) m l !! name
  = m !! name.
Proof.
  revert m. induction l as [|kv l IH]; intros m Hnot; [done|].
  rewrite fmap_cons in Hnot. apply not_elem_of_cons in Hnot as [Hne Hnot].
  simpl. rewrite IH by done. by rewrite lookup_insert_ne.
Qed.

Lemma foldl_insert_lookup (l : list (string * pyval)) (m : gmap string pyval)
    k dflt :
  NoDup ((λ kv, attr_of kv.1) <$> l) → (k, dflt) ∈ l →
  foldl (λ m kv, <[attr_of kv.1 := resolved e kv.1 kv.2]> m) m l
    !! attr_of k
  = Some (resolved e k dflt).
Proof.
  revert m. induction l as [|kv l IH]; intros m Hnd Hin.
  { by apply elem_of_nil in Hin. }
  rewrite fmap_cons in Hnd. apply NoDup_cons in Hnd as [Hfresh Hnd].
  simpl. apply elem_of_cons in Hin as [<-|Hin].
  - simpl. rewrite foldl_insert_other by done. by rewrite lookup_insert_eq.
  - by apply IH.
Qed.

End Scraping.

Lemma _scrape_args_precedence_aux e w k dflt :
  (k, dflt) ∈ __DEFAULT_PROPERTIES__ →
  ∃ w', _scrape_args e w = (Ok (), w')
        ∧ self w' !! attr_of k = Some (resolved e k dflt).
Proof.
  intros Hin. unfold _scrape_args. rewrite for_each_scrape.
  eexists. split; [reflexivity|]. cbn [self].
  apply (foldl_insert_lookup e __DEFAULT_PROPERTIES__); [|done].
  apply (bool_decide_unpack _). vm_compute. exact I.
Qed.

(** [_scrape_args] never fails, touches nothing but the object, and
    leaves in [_<key>] the value of the command line if there is one,
    else the environment variable if it is set, else the default. *)
Theorem _scrape_args_precedence e w k dflt :
  (k, dflt) ∈ __DEFAULT_PROPERTIES__ →
  ∃ w',
    _scrape_args e w = (Ok (), w')
    ∧ self w' !! attr_of k = Some (resolved e k dflt)
    ∧ local_fs w' = local_fs w ∧ remote_fs w' = remote_fs w
    ∧ trace w' = trace w.
Proof.
  intros Hin. unfold _scrape_args. rewrite for_each_scrape.
  eexists. split; [reflexivity|].
  cbn [self local_fs remote_fs trace]. split; [|done].
  apply (foldl_insert_lookup e __DEFAULT_PROPERTIES__); [|done].
  apply (bool_decide_unpack _). vm_compute. exact I.
Qed.

Lemma _scrape_args_precedence_witness :
  ∃ w',
    _scrape_args tuesday (fresh ∅ ∅) = (Ok (), w')
    ∧ self w' !! attr_of "DIR_REMOTE"
      = Some (resolved tuesday "DIR_REMOTE" PNone)
    ∧ local_fs w' = local_fs (fresh ∅ ∅)
    ∧ remote_fs w' = remote_fs (fresh ∅ ∅)
    ∧ trace w' = trace (fresh ∅ ∅).
Proof.
  apply (_scrape_args_precedence tuesday (fresh ∅ ∅) "DIR_REMOTE" PNone).
  unfold __DEFAULT_PROPERTIES__.
  repeat (apply elem_of_cons; first [by left|right]).
Defined.

(** ** The object after [__init__] *)

Ltac quiet_for name :=
  repeat (first
    [ apply (preserves_bind (quiet name)); [|intros ?]
    | apply (preserves_get_attr (quiet name))
    | apply (preserves_lift (quiet name))
    | apply (preserves_ret (quiet name))
    | apply (preserves_raise (quiet name))
    | apply quiet_popen
    | apply quiet_set_attr; congruence ]).

Lemma _bookkeeping_keeps e name :
  name ∉ bookkeeping_attrs → preserves (quiet name) (_bookkeeping e).
Proof.
  unfold bookkeeping_attrs. rewrite !not_elem_of_cons.
  intros (? & ? & ? & ? & _). unfold _bookkeeping. quiet_for name.
  match goal with
  | |- preserves _ (match ?d with _ => _ end) => destruct d
  end; quiet_for name.
Qed.

(** [_bookkeeping] leaves the configuration as [_scrape_args] set it. *)
Lemma __init__attr e w w1 k dflt :
  (k, dflt) ∈ __DEFAULT_PROPERTIES__ →
  __init__ e w = (Ok (), w1) →
  self w1 !! attr_of k = Some (resolved e k dflt).
Proof.
  intros Hin. unfold __init__. intros (u & w0 & Hs & Hb)%bind_Ok.
  destruct (_scrape_args_precedence_aux e w k dflt Hin) as (w0' & Hs' & Hk).
  rewrite Hs in Hs'. assert (w0' = w0) as -> by congruence.
  assert (attr_of k ∉ bookkeeping_attrs) as Hnot.
  { assert (Forall (λ kv, attr_of kv.1 ∉ bookkeeping_attrs)
              __DEFAULT_PROPERTIES__) as Hall
      by (apply (bool_decide_unpack _); vm_compute; exact I).
    rewrite Forall_forall in Hall. apply (Hall _ Hin). }
  destruct (_bookkeeping_keeps e _ Hnot _ _ _ Hb) as (Hsame & _).
  by rewrite Hsame.
Qed.



(** ** Whole runs *)

(** No run of [main] on a new object completes.  Whatever the
    configuration, the date and the outcome of the dump, it ends on an
    exception, having written, uploaded, listed and removed nothing;
    when [__init__] and [read_db] go through, the exception is the
    [AttributeError] of [dump_local]. *)
Theorem main_never_completes e w :
  self w !! "_skip_local" = None →
  ∃ ex w',
    main e w = (Raise ex, w')
    ∧ local_fs w' = local_fs w ∧ remote_fs w' = remote_fs w
    ∧ client_open w' = client_open w ∧ sftp_open w' = sftp_open w
    ∧ (∃ cmds, trace w' = trace w ++ (EPopen <$> cmds))
    ∧ (∀ w2, (__init__ e;; read_db e) w = (Ok (), w2) →
             ex = AttributeError "_skip_local" ∧ w' = w2).
Proof.
  intros Hnone.
  assert (∀ ex w', quiet "_skip_local" w w' →
            main e w = (Raise ex, w') →
            (∀ w2, (__init__ e;; read_db e) w = (Ok (), w2) →
                   ex = AttributeError "_skip_local" ∧ w' = w2) →
            ∃ ex w',
              main e w = (Raise ex, w')
              ∧ local_fs w' = local_fs w ∧ remote_fs w' = remote_fs w
              ∧ client_open w' = client_open w ∧ sftp_open w' = sftp_open w
              ∧ (∃ cmds, trace w' = trace w ++ (EPopen <$> cmds))
              ∧ (∀ w2, (__init__ e;; read_db e) w = (Ok (), w2) →
                       ex = AttributeError "_skip_local" ∧ w' = w2)) as Hpack.
  { intros ex w' (_ & H1 & H2 & H3 & H4 & H5) Hmain Hlast.
    exists ex, w'. split; [exact Hmain|]. split; [exact H1|].
    split; [exact H2|]. split; [exact H3|]. split; [exact H4|].
    split; [exact H5|exact Hlast]. }
  destruct (__init__ e w) as [[[]|ex] w1] eqn:E1.
  - pose proof (__init__quiet e _ _ _ E1) as Hq1.
    destruct (read_db e w1) as [[[]|ex] w2] eqn:E2.
    + pose proof (read_db_quiet e _ _ _ E2) as Hq2.
      assert (quiet "_skip_local" w w2) as Hq by (by etrans).
      apply (Hpack (AttributeError "_skip_local") w2 Hq).
      * unfold main, mbind, M_bind. rewrite E1, E2.
        rewrite dump_local_no_attr; [reflexivity|].
        destruct Hq as [-> _]. exact Hnone.
      * intros w2'. unfold mbind, M_bind. rewrite E1, E2.
        intros [= <-]. split; reflexivity.
    + assert (quiet "_skip_local" w w2) as Hq.
      { etrans; [exact Hq1|]. by eapply read_db_quiet. }
      apply (Hpack ex w2 Hq).
      * unfold main, mbind, M_bind. by rewrite E1, E2.
      * intros w2'. unfold mbind, M_bind. rewrite E1, E2. intros [=].
  - pose proof (__init__quiet e _ _ _ E1) as Hq.
    apply (Hpack ex w1 Hq).
    * unfold main, mbind, M_bind. by rewrite E1.
    * intros w2'. unfold mbind, M_bind. rewrite E1. intros [=].
Qed.

Lemma main_never_completes_witness :
  ∃ ex w',
    main tuesday (fresh staged ∅) = (Raise ex, w')
    ∧ local_fs w' = local_fs (fresh staged ∅)
    ∧ remote_fs w' = remote_fs (fresh staged ∅)
    ∧ client_open w' = client_open (fresh staged ∅)
    ∧ sftp_open w' = sftp_open (fresh staged ∅)
    ∧ (∃ cmds, trace w' = trace (fresh staged ∅) ++ (EPopen <$> cmds))
    ∧ (∀ w2, (__init__ tuesday;; read_db tuesday) (fresh staged ∅)
             = (Ok (), w2) →
             ex = AttributeError "_skip_local" ∧ w' = w2).
Proof. apply (main_never_completes tuesday (fresh staged ∅)). reflexivity. Defined.

Lemma skip_remote_is_a_key :
  ("SKIP_REMOTE", PBool false) ∈ __DEFAULT_PROPERTIES__.
Proof.
  unfold __DEFAULT_PROPERTIES__.
  repeat (apply elem_of_cons; first [by left|right]).
Qed.

(** The flag that skips the remote leg is tested for truth as Python
    tests a value, and the parser gives the option as the string that
    was typed: any string that is not empty, [False] and [0] among
    them, makes [dump_remote] return at once, with no connection
    attempted. *)
Theorem skip_remote_by_any_string e w w1 s debug :
  cli_args e !! "skip_remote" = Some (PStr s) →
  s ≠ "" →
  __init__ e w = (Ok (), w1) →
  dump_remote e debug w1 = (Ok (), w1).
Proof.
  intros Hcli Hs Hinit.
  assert (self w1 !! "_skip_remote" = Some (PStr s)) as Hattr.
  { pose proof (__init__attr e w w1 _ _ skip_remote_is_a_key Hinit) as Hres.
    change (attr_of "SKIP_REMOTE") with "_skip_remote" in Hres.
    rewrite Hres. f_equal.
    unfold resolved. change (lower "SKIP_REMOTE") with "skip_remote".
    clear Hres Hinit.
    unfold checkcli. rewrite Hcli. reflexivity. }
  unfold dump_remote, mbind, M_bind, get_attr. rewrite Hattr.
  cbn [truthy]. clear Hinit Hattr.
  destruct (String.eqb_spec s "") as [Heq|_]; [destruct (Hs Heq)|].
  reflexivity.
Qed.

Lemma skip_remote_by_any_string_witness :
  dump_remote tuesday_skip_remote false
    (__init__ tuesday_skip_remote (fresh ∅ ∅)).2
  = (Ok (), (__init__ tuesday_skip_remote (fresh ∅ ∅)).2).
Proof.
  apply (skip_remote_by_any_string _ (fresh ∅ ∅) _ "False").
  - vm_compute. reflexivity.
  - discriminate.
  - vm_compute. reflexivity.
Defined.

(** ** What the remote leg needs *)

#[global] Instance same_obj_preorder : PreOrder same_obj.
Proof.
  split.
  - by intros w.
  - intros w1 w2 w3 [H1 H2] [G1 G2]. split; congruence.
Qed.

Section SameObject.

Lemma same_obj_log ev : preserves same_obj (log ev).
Proof. by intros w r w' [= <- <-]. Qed.

Lemma same_obj_may_fail err : preserves same_obj (may_fail err).
Proof. destruct err; by intros w r w' [= <- <-]. Qed.

Lemma same_obj_set_session c s : preserves same_obj (set_session c s).
Proof. by intros w r w' [= <- <-]. Qed.

Lemma same_obj_set_remote fs : preserves same_obj (set_remote fs).
Proof. by intros w r w' [= <- <-]. Qed.

Lemma same_obj_get_local : preserves same_obj get_local.
Proof. by intros w r w' [= <- <-]. Qed.

Lemma same_obj_get_remote : preserves same_obj get_remote.
Proof. by intros w r w' [= <- <-]. Qed.

Lemma same_obj_reraise_as {A} msg (m : M A) :
  preserves same_obj m → preserves same_obj (reraise_as msg m).
Proof.
  intros Hm w r w'. unfold reraise_as.
  destruct (m w) as [[a|ex] w1] eqn:E; intros [= <- <-]; by eapply Hm.
Qed.

Lemma same_obj_sftp_put e l r : preserves same_obj (sftp_put e l r).
Proof.
  unfold sftp_put.
  apply (preserves_bind same_obj); [apply same_obj_log|intros _].
  apply (preserves_bind same_obj); [apply same_obj_get_local|intros fs].
  destruct (fs !! l).
  - apply (preserves_bind same_obj); [apply same_obj_may_fail|intros _].
    apply (preserves_bind same_obj); [apply same_obj_get_remote|intros ?].
    apply same_obj_set_remote.
  - apply (preserves_raise same_obj).
Qed.

Lemma same_obj_tier_path dir_attr t : preserves same_obj (tier_path dir_attr t).
Proof.
  unfold tier_path.
  apply (preserves_bind same_obj); [apply (preserves_get_attr same_obj)|].
  intros ?.
  apply (preserves_bind same_obj); [apply (preserves_get_attr same_obj)|].
  intros ?. apply (preserves_lift same_obj).
Qed.

Lemma same_obj_upload e t msg : preserves same_obj (upload e t msg).
Proof.
  unfold upload.
  apply (preserves_bind same_obj); [apply same_obj_tier_path|intros ?].
  apply (preserves_bind same_obj); [apply same_obj_tier_path|intros ?].
  apply same_obj_reraise_as, same_obj_sftp_put.
Qed.

Lemma bind_Ok_preserves {A B} P (m : M A) (k : A → M B) w b w' :
  preserves P m → (m ≫= k) w = (Ok b, w') →
  ∃ a w1, P w w1 ∧ k a w1 = (Ok b, w').
Proof.
  intros Hm (a & w1 & E & H)%bind_Ok. exists a, w1. split; [|done].
  by eapply Hm.
Qed.

(** An upload that succeeds has found its local file. *)
Lemma upload_ok e t msg w w1 :
  upload e t msg w = (Ok (), w1) →
  ∃ dl fn p,
    self w !! "_dir_local" = Some dl ∧ self w !! "_filename" = Some fn
    ∧ path_join dl (tier_name t (to_str fn)) = Ok p
    ∧ is_Some (local_fs w !! p).
Proof.
  unfold upload, tier_path, mbind, M_bind, get_attr, lift.
  destruct (self w !! "_dir_local") as [dl|] eqn:Hdl; [|done].
  destruct (self w !! "_filename") as [fn|] eqn:Hfn; [|done].
  destruct (path_join dl (tier_name t (to_str fn))) as [p|] eqn:Hp; [|done].
  destruct (self w !! "_dir_remote") as [dr|]; [|done].
  rewrite Hfn.
  destruct (path_join dr (tier_name t (to_str fn))) as [q|]; [|done].
  unfold reraise_as, sftp_put, mbind, M_bind, log, get_local.
  cbn [local_fs].
  destruct (local_fs w !! p) as [content|] eqn:Hc; [|done].
  intros _. exists dl, fn, p. eauto.
Qed.

End SameObject.

(** The remote leg goes through only when the local directory holds the
    file of the day under all three tier names: [dump_remote] uploads
    the weekly and the monthly name on every day. *)
Theorem dump_remote_needs_three_files e debug w w' skip_remote :
  self w !! "_skip_remote" = Some skip_remote →
  truthy skip_remote = false →
  dump_remote e debug w = (Ok (), w') →
  ∃ dl fn,
    self w !! "_dir_local" = Some dl ∧ self w !! "_filename" = Some fn
    ∧ ∀ t, ∃ p, path_join dl (tier_name t (to_str fn)) = Ok p
                ∧ is_Some (local_fs w !! p).
Proof.
  intros Hskip Hfalse H. unfold dump_remote in H.
  apply bind_Ok in H as (v & w0 & Hget & H).
  unfold get_attr in Hget. rewrite Hskip in Hget.
  assert (v = skip_remote ∧ w0 = w) as [-> ->] by (split; congruence).
  clear Hget. rewrite Hfalse in H.
  apply (bind_Ok_preserves same_obj) in H as (cred & w1 & S1 & H);
    [|apply (preserves_get_attr same_obj)].
  apply (bind_Ok_preserves same_obj) in H as (? & w2 & S2 & H);
    [|apply (preserves_get_attr same_obj)].
  apply (bind_Ok_preserves same_obj) in H as (? & w3 & S3 & H);
    [|apply (preserves_get_attr same_obj)].
  apply (bind_Ok_preserves same_obj) in H as (? & w4 & S4 & H);
    [|apply (preserves_get_attr same_obj)].
  apply (bind_Ok_preserves same_obj) in H as (? & w5 & S5 & H).
  2:{ destruct cred; try apply (preserves_ret same_obj).
      apply (preserves_bind same_obj);
        [apply (preserves_get_attr same_obj)|intros ?].
      apply (preserves_ret same_obj). }
  apply (bind_Ok_preserves same_obj) in H as (? & w6 & S6 & H);
    [|apply same_obj_log].
  apply (bind_Ok_preserves same_obj) in H as (? & w7 & S7 & H);
    [|apply same_obj_may_fail].
  apply (bind_Ok_preserves same_obj) in H as (? & w8 & S8 & H);
    [|apply same_obj_set_session].
  apply (bind_Ok_preserves same_obj) in H as (? & w9 & S9 & H);
    [|apply same_obj_log].
  apply (bind_Ok_preserves same_obj) in H as (? & w10 & S10 & H);
    [|apply same_obj_set_session].
  assert (same_obj w w10) as [Hself Hfs].
  { repeat (etrans; [eassumption|]). reflexivity. }
  apply bind_Ok in H as ([] & w11 & Ud & H).
  apply bind_Ok in H as ([] & w12 & Uw & H).
  apply bind_Ok in H as ([] & w13 & Um & _).
  destruct (same_obj_upload _ _ _ _ _ _ Ud) as [Hs11 Hf11].
  destruct (same_obj_upload _ _ _ _ _ _ Uw) as [Hs12 Hf12].
  apply upload_ok in Ud as (dl & fn & pd & Hdl & Hfn & Hpd & Hd).
  apply upload_ok in Uw as (dl2 & fn2 & pw & Hdl2 & Hfn2 & Hpw & Hw).
  apply upload_ok in Um as (dl3 & fn3 & pm & Hdl3 & Hfn3 & Hpm & Hm).
  rewrite Hs12, Hs11 in Hdl3, Hfn3. rewrite Hs11 in Hdl2, Hfn2.
  rewrite Hf12, Hf11 in Hm. rewrite Hf11 in Hw.
  assert (dl2 = dl ∧ fn2 = fn ∧ dl3 = dl ∧ fn3 = fn)
    as (-> & -> & -> & ->) by (repeat split; congruence).
  rewrite Hself in Hdl, Hfn. rewrite Hfs in Hd, Hw, Hm.
  exists dl, fn. split; [done|]. split; [done|].
  intros [| |]; eauto.
Qed.

Lemma dump_remote_needs_three_files_witness :
  ∃ dl fn,
    self (before_remote tuesday staged) !! "_dir_local" = Some dl
    ∧ self (before_remote tuesday staged) !! "_filename" = Some fn
    ∧ ∀ t, ∃ p, path_join dl (tier_name t (to_str fn)) = Ok p
                ∧ is_Some (local_fs (before_remote tuesday staged) !! p).
Proof.
  apply (dump_remote_needs_three_files tuesday false
           (before_remote tuesday staged)
           (dump_remote tuesday false (before_remote tuesday staged)).2
           (PBool false)).
  - vm_compute. reflexivity.
  - reflexivity.
  - vm_compute. reflexivity.
Defined.

(** ** Removing the dropped files *)

Section CleanUp.

Context (d : string).

Lemma path_join_str f : path_join (PStr d) f = Ok (posix_join d f).
Proof. reflexivity. Qed.

Lemma drop_loop_ok stack w :
  self w !! "_dir_local" = Some (PStr d) →
  NoDup (posix_join d <$> stack) →
  (∀ f, f ∈ stack → is_Some (local_fs w !! posix_join d f)) →
  ∃ w',
    drop_loop os_remove "_dir_local" stack w = (Ok (), w')
    ∧ self w' !! "_drop_list"
      = match stack with
        | [] => self w !! "_drop_list"
        | _ :: _ => Some (PList [])
        end
    ∧ (∀ p, local_fs w' !! p
            = if decide (p ∈ posix_join d <$> stack) then None
              else local_fs w !! p)
    ∧ remote_fs w' = remote_fs w
    ∧ trace w' = trace w ++ (ERemove <$> (posix_join d <$> stack)).
Proof.
  revert w. induction stack as [|fl rest IH]; intros w Hdir Hnd Hall.
  - exists w. split; [done|]. split; [done|]. split.
    + intros p. rewrite decide_False; [done|]. by intros ?%elem_of_nil.
    + split; [done|]. by rewrite app_nil_r.
  - rewrite fmap_cons in Hnd. apply NoDup_cons in Hnd as [Hfresh Hnd].
    destruct (Hall fl ltac:(left)) as [content Hfl].
    set (wa := World (<["_drop_list" := PList (rev rest)]> (self w))
                 (local_fs w) (remote_fs w) (client_open w) (sftp_open w)
                 (trace w)).
    set (wb := World (self wa) (delete (posix_join d fl) (local_fs w))
                 (remote_fs w) (client_open w) (sftp_open w)
                 (trace w ++ [ERemove (posix_join d fl)])).
    assert (drop_loop os_remove "_dir_local" (fl :: rest) w
            = drop_loop os_remove "_dir_local" rest wb) as Hstep.
    { cbn [drop_loop]. unfold mbind, M_bind, set_attr, get_attr, lift.
      cbn [self]. rewrite lookup_insert_ne by discriminate.
      rewrite Hdir, path_join_str.
      unfold os_remove, mbind, M_bind, log, get_local, set_local.
      cbn [local_fs]. by rewrite Hfl. }
    destruct (IH wb) as (w' & Hrun & Hdl & Hfs & Hr & Ht).
    { cbn [self wb wa]. by rewrite lookup_insert_ne by discriminate. }
    { done. }
    { intros f Hf. cbn [local_fs wb]. rewrite lookup_delete_ne.
      - apply Hall. by right.
      - intros Heq. apply Hfresh. rewrite Heq.
        apply list_elem_of_fmap. eauto. }
    exists w'. rewrite Hstep. split; [done|]. split.
    + rewrite Hdl. destruct rest; [|done].
      cbn [self wb wa]. by rewrite lookup_insert_eq.
    + split; [|split].
      * intros p. rewrite Hfs. cbn [local_fs wb]. rewrite fmap_cons.
        destruct (decide (p = posix_join d fl)) as [->|Hne].
        -- rewrite lookup_delete_eq, (decide_True (P := _ ∈ _ :: _))
             by left. by destruct (decide _).
        -- rewrite lookup_delete_ne by done.
           destruct (decide (p ∈ posix_join d <$> rest)) as [Hin|Hnin].
           ++ by rewrite decide_True by by right.
           ++ rewrite decide_False; [done|].
              by intros [?|?]%elem_of_cons.
      * by rewrite Hr.
      * rewrite Ht. cbn [trace wb]. rewrite !fmap_cons.
        by rewrite <- app_assoc.
Qed.

End CleanUp.

(** When every name of the drop list is a file of the local directory,
    the loop that follows [manage_files] removes exactly these files,
    last name first, and leaves the drop list empty; the other files
    and the remote store are as before. *)
Theorem clean_up_removes_dropped d l w :
  self w !! "_drop_list" = Some (PList l) →
  self w !! "_dir_local" = Some (PStr d) →
  NoDup (posix_join d <$> l) →
  (∀ f, f ∈ l → is_Some (local_fs w !! posix_join d f)) →
  ∃ w',
    clean_up os_remove "_dir_local" w = (Ok (), w')
    ∧ self w' !! "_drop_list" = Some (PList [])
    ∧ (∀ p, local_fs w' !! p
            = if decide (p ∈ posix_join d <$> l) then None
              else local_fs w !! p)
    ∧ remote_fs w' = remote_fs w
    ∧ trace w' = trace w ++ (ERemove <$> (posix_join d <$> rev l)).
Proof.
  intros Hl Hdir Hnd Hall.
  assert (rev l ≡ₚ l) as Hperm by (symmetry; apply Permutation_rev).
  destruct (drop_loop_ok d (rev l) w Hdir) as (w' & Hrun & Hdl & Hfs & Hr & Ht).
  { by rewrite Hperm. }
  { intros f Hf. apply Hall. by rewrite <- Hperm. }
  exists w'. unfold clean_up, mbind, M_bind, get_attr. rewrite Hl.
  split; [done|]. split.
  - rewrite Hdl. destruct (rev l) eqn:Hrev; [|done].
    apply (f_equal (@rev string)) in Hrev. rewrite rev_involutive in Hrev.
    by rewrite Hl, Hrev.
  - split; [|done]. intros p. rewrite Hfs.
    destruct (decide (p ∈ posix_join d <$> rev l)) as [Hin|Hnin].
    + rewrite Hperm in Hin. by rewrite decide_True.
    + rewrite Hperm in Hnin. by rewrite decide_False.
Qed.

Lemma clean_up_removes_dropped_witness :
  ∃ w',
    clean_up os_remove "_dir_local" dropping = (Ok (), w')
    ∧ self w' !! "_drop_list" = Some (PList [])
    ∧ (∀ p, local_fs w' !! p
            = if decide (p ∈ posix_join "/backups" <$> ["a.sql"; "b.sql"])
              then None
              else local_fs dropping !! p)
    ∧ remote_fs w' = remote_fs dropping
    ∧ trace w' = trace dropping
                 ++ (ERemove <$> (posix_join "/backups"
                                    <$> rev ["a.sql"; "b.sql"])).
Proof.
  apply (clean_up_removes_dropped "/backups" ["a.sql"; "b.sql"] dropping).
  - vm_compute. reflexivity.
  - vm_compute. reflexivity.
  - apply (bool_decide_unpack _). vm_compute. exact I.
  - intros f Hf. apply (bool_decide_unpack _).
    repeat (apply elem_of_cons in Hf as [->|Hf]; [vm_compute; exact I|]).
    by apply elem_of_nil in Hf.
Defined.

(** ** The bookkeeping *)

Lemma _scrape_args_run e w :
  _scrape_args e w
  = (Ok (),
     World (foldl (λ m kv, <[attr_of kv.1 := resolved e kv.1 kv.2]> m)
              (self w) __DEFAULT_PROPERTIES__)
       (local_fs w) (remote_fs w) (client_open w) (sftp_open w) (trace w)).
Proof. unfold _scrape_args. apply for_each_scrape. Qed.

Lemma scraped_lookup e w k dflt :
  (k, dflt) ∈ __DEFAULT_PROPERTIES__ →
  foldl (λ m kv, <[attr_of kv.1 := resolved e kv.1 kv.2]> m)
    (self w) __DEFAULT_PROPERTIES__ !! attr_of k
  = Some (resolved e k dflt).
Proof.
  intros Hin. apply (foldl_insert_lookup e __DEFAULT_PROPERTIES__); [|done].
  apply (bool_decide_unpack _). vm_compute. exact I.
Qed.

Lemma _bookkeeping_bad_count e w vd vw vm :
  self w !! "_dly_backup_count" = Some vd →
  self w !! "_wly_backup_count" = Some vw →
  self w !! "_mly_backup_count" = Some vm →
  (∃ ex, int_float e vd = Raise ex) ∨ (∃ ex, int_float e vw = Raise ex)
  ∨ (∃ ex, int_float e vm = Raise ex) →
  ∃ ex, _bookkeeping e w = (Raise ex, w).
Proof.
  intros Hd Hw Hm Hbad.
  unfold _bookkeeping, mbind, M_bind, get_attr, lift. rewrite Hd.
  destruct (int_float e vd) as [d|exd]; [|eauto]. rewrite Hw.
  destruct (int_float e vw) as [n|exw]; [|eauto]. rewrite Hm.
  destruct (int_float e vm) as [m|exm]; [|eauto].
  destruct Hbad as [[? ?]|[[? ?]|[? ?]]]; discriminate.
Qed.

(** A retention count that is a string which does not convert to a
    number ends the run in [__init__]: nothing is dumped, no file is
    written or removed. *)
Theorem bad_count_aborts_before_dump e w k s ex :
  k ∈ count_keys →
  resolved e k (PInt 5) = PStr s →
  int_float_str e s = Raise ex →
  ∃ ex' w',
    main e w = (Raise ex', w')
    ∧ local_fs w' = local_fs w ∧ remote_fs w' = remote_fs w
    ∧ trace w' = trace w.
Proof.
  intros Hk Hres Hconv.
  set (w0 := World (foldl (λ m kv, <[attr_of kv.1 := resolved e kv.1 kv.2]> m)
                      (self w) __DEFAULT_PROPERTIES__)
               (local_fs w) (remote_fs w) (client_open w) (sftp_open w)
               (trace w)).
  assert (∀ k', k' ∈ count_keys →
            self w0 !! attr_of k' = Some (resolved e k' (PInt 5))) as Hlook.
  { intros k' Hk'. apply scraped_lookup. unfold count_keys in Hk'.
    unfold __DEFAULT_PROPERTIES__.
    repeat (apply elem_of_cons in Hk' as [->|Hk'];
            [repeat (apply elem_of_cons; first [by left|right])|]).
    by apply elem_of_nil in Hk'. }
  destruct (_bookkeeping_bad_count e w0
              (resolved e "DLY_BACKUP_COUNT" (PInt 5))
              (resolved e "WLY_BACKUP_COUNT" (PInt 5))
              (resolved e "MLY_BACKUP_COUNT" (PInt 5))) as [ex' Hbk].
  - apply (Hlook "DLY_BACKUP_COUNT"). unfold count_keys.
    repeat (apply elem_of_cons; first [by left|right]).
  - apply (Hlook "WLY_BACKUP_COUNT"). unfold count_keys.
    repeat (apply elem_of_cons; first [by left|right]).
  - apply (Hlook "MLY_BACKUP_COUNT"). unfold count_keys.
    repeat (apply elem_of_cons; first [by left|right]).
  - assert (int_float e (resolved e k (PInt 5)) = Raise ex) as Hraise
      by (rewrite Hres; exact Hconv).
    unfold count_keys in Hk.
    apply elem_of_cons in Hk as [->|Hk]; [left; eauto|].
    apply elem_of_cons in Hk as [->|Hk]; [right; left; eauto|].
    apply elem_of_cons in Hk as [->|Hk]; [right; right; eauto|].
    by apply elem_of_nil in Hk.
  - exists ex', w0. split; [|by split].
    unfold main, __init__, mbind, M_bind. rewrite _scrape_args_run.
    fold w0. by rewrite Hbk.
Qed.

Lemma bad_count_aborts_before_dump_witness :
  ∃ ex' w',
    main tuesday_bad_count (fresh staged ∅) = (Raise ex', w')
    ∧ local_fs w' = local_fs (fresh staged ∅)
    ∧ remote_fs w' = remote_fs (fresh staged ∅)
    ∧ trace w' = trace (fresh staged ∅).
Proof.
  apply (bad_count_aborts_before_dump tuesday_bad_count (fresh staged ∅)
           "DLY_BACKUP_COUNT" "seven" (ValueError "could not convert")).
  - unfold count_keys. apply (bool_decide_unpack _). vm_compute. exact I.
  - vm_compute. reflexivity.
  - reflexivity.
Defined.

Lemma get_attr_Ok name w v w' :
  get_attr name w = (Ok v, w') → w' = w ∧ self w !! name = Some v.
Proof.
  unfold get_attr. destruct (self w !! name); intros [= <- <-]; done.
Qed.

Lemma lift_Ok {A} (r : result A) w v w' :
  lift r w = (Ok v, w') → w' = w ∧ r = Ok v.
Proof. unfold lift. by intros [= -> ->]. Qed.

Lemma strftime_d_first d :
  (day d < 100)%nat → String.eqb (strftime_d d) "01" = (day d =? 1)%nat.
Proof.
  intros Hday. unfold strftime_d. change "01" with (pad2 1).
  pose proof (two_digits_compare (day d) 1 "" "" Hday ltac:(lia)) as Hcmp.
  fold (pad2 (day d)) in Hcmp. fold (pad2 1) in Hcmp.
  destruct (String.eqb_spec (pad2 (day d)) (pad2 1)) as [Heq|Hne];
    destruct (Nat.eqb_spec (day d) 1) as [Hone|Hnot]; try reflexivity.
  - rewrite Heq, compare_refl in Hcmp.
    destruct (Nat.compare_spec (day d) 1); [lia|discriminate..].
  - destruct Hne. by rewrite Hone.
Qed.

(** Once [__init__] has returned, the monthly flag is set exactly on the
    first day of a month and the weekly flag exactly on a Sunday. *)
Theorem flags_follow_the_calendar e w w1 :
  valid_date (today e) →
  __init__ e w = (Ok (), w1) →
  self w1 !! "_make_monthly" = Some (PBool (day (today e) =? 1)%nat)
  ∧ self w1 !! "_make_weekly" = Some (PBool (weekday (today e) =? 6)%nat).
Proof.
  intros Hvalid. unfold __init__. intros (u & w0 & _ & Hb)%bind_Ok.
  assert (day (today e) < 100)%nat as Hday.
  { destruct Hvalid as (_ & _ & _ & Hle). unfold days_in_month in Hle.
    repeat case_match; lia. }
  rewrite <- (strftime_d_first _ Hday). clear Hvalid Hday.
  unfold _bookkeeping in Hb.
  apply bind_Ok in Hb as (vd & wa & [-> _]%get_attr_Ok & Hb).
  apply bind_Ok in Hb as (d & wa & [-> _]%lift_Ok & Hb).
  apply bind_Ok in Hb as (vw & wa & [-> _]%get_attr_Ok & Hb).
  apply bind_Ok in Hb as (n & wa & [-> _]%lift_Ok & Hb).
  apply bind_Ok in Hb as (vm & wa & [-> _]%get_attr_Ok & Hb).
  apply bind_Ok in Hb as (m & wa & [-> _]%lift_Ok & Hb).
  apply bind_Ok in Hb as ([] & wa & [= <-] & Hb).
  apply bind_Ok in Hb as ([] & wb & [= <-] & Hb).
  apply bind_Ok in Hb as ([] & wc & [= <-] & Hb).
  apply bind_Ok in Hb as (dbs & wd & [-> _]%get_attr_Ok & Hb).
  destruct dbs; try discriminate Hb.
  injection Hb as <-. cbn [self].
  split.
  - rewrite lookup_insert_ne by discriminate. apply lookup_insert_eq.
  - rewrite !lookup_insert_ne by discriminate. apply lookup_insert_eq.
Qed.

Lemma flags_follow_the_calendar_witness :
  self (__init__ tuesday (fresh ∅ ∅)).2 !! "_make_monthly"
  = Some (PBool (day (today tuesday) =? 1)%nat)
  ∧ self (__init__ tuesday (fresh ∅ ∅)).2 !! "_make_weekly"
    = Some (PBool (weekday (today tuesday) =? 6)%nat).
Proof.
  apply (flags_follow_the_calendar tuesday (fresh ∅ ∅)).
  - unfold valid_date. vm_compute. repeat split; try lia; discriminate.
  - vm_compute. reflexivity.
Defined.

(** ** The dump that fails *)






